(** * Kraft Heinz QC: the reconciliation core of [app.py]

    A shallow embedding of [StreamlitExcelComparator]: filename-to-catalog
    matching, the ProdHier row filter, date parsing, column alignment, the
    cell comparison and the comparison loop of [compare_files].

    Python [float] is IEEE binary64 and is modelled by Rocq's primitive
    floats; Python [str] is modelled by [string] restricted to ASCII (case
    mapping touches [a-z]/[A-Z] only); a pandas DataFrame is a column header
    plus labelled rows.  Spreadsheet loading and report writing are external
    collaborators and are not part of the embedding. *)

From Stdlib Require Import ZArith String Ascii List Bool Lia Floats DecimalString.
Import ListNotations.
Set Warnings "-inexact-float".
Open Scope string_scope.
Open Scope list_scope.

(** ** Python strings *)

Module PyStr.

Definition is_lower_char (c : ascii) : bool :=
  let n := nat_of_ascii c in (97 <=? n)%nat && (n <=? 122)%nat.

Definition is_upper_char (c : ascii) : bool :=
  let n := nat_of_ascii c in (65 <=? n)%nat && (n <=? 90)%nat.

Definition upper_char (c : ascii) : ascii :=
  if is_lower_char c then ascii_of_nat (nat_of_ascii c - 32) else c.

Definition lower_char (c : ascii) : ascii :=
  if is_upper_char c then ascii_of_nat (nat_of_ascii c + 32) else c.

(** [s.upper()] *)
Fixpoint upper (s : string) : string :=
  match s with
  | EmptyString => EmptyString
  | String c r => String (upper_char c) (upper r)
  end.

(** [s.lower()] *)
Fixpoint lower (s : string) : string :=
  match s with
  | EmptyString => EmptyString
  | String c r => String (lower_char c) (lower r)
  end.

(** [p in s] on two strings: [p] occurs in [s] as a contiguous run. *)
Fixpoint contains (p s : string) : bool :=
  prefix p s ||
  match s with
  | EmptyString => false
  | String _ r => contains p r
  end.

(** [s.rfind(c)], with [None] for Python's [-1]. *)
Fixpoint rfind (c : ascii) (s : string) : option nat :=
  match s with
  | EmptyString => None
  | String d r =>
      match rfind c r with
      | Some i => Some (S i)
      | None => if Ascii.eqb d c then Some 0%nat else None
      end
  end.

(** [s.split(sep)] for a one-character separator. *)
Fixpoint split (sep : ascii) (s : string) : list string :=
  match s with
  | EmptyString => [EmptyString]
  | String c r =>
      if Ascii.eqb c sep then EmptyString :: split sep r
      else match split sep r with
           | [] => [String c EmptyString]
           | h :: t => String c h :: t
           end
  end.

(** [sep.join(items)] *)
Fixpoint join (sep : string) (items : list string) : string :=
  match items with
  | [] => EmptyString
  | [x] => x
  | x :: rest => x ++ sep ++ join sep rest
  end.

Definition newline : string := String (ascii_of_nat 10) EmptyString.

(** [str(n)] for a non-negative integer. *)
Definition of_nat (n : nat) : string := NilEmpty.string_of_uint (Nat.to_uint n).

(** The propositional reading of [p in s]. *)
Definition occurs_in (p s : string) : Prop :=
  exists before after : string, s = (before ++ p ++ after)%string.

End PyStr.

(** ** [pathlib.Path] on POSIX names: [.name] and [.stem] *)

Module Pathlib.

(** The path's components: empty and ["."] components are dropped. *)
Definition parts (path : string) : list string :=
  filter (fun p => negb (p =? EmptyString) && negb (p =? "."))
         (PyStr.split "/"%char path).

(** [Path(path).name]: the final component, the empty string when there is none. *)
Definition name (path : string) : string := last (parts path) EmptyString.

(** [Path(path).stem]: the name without its last suffix.  A dot in first
    position or in last position does not start a suffix. *)
Definition stem (path : string) : string :=
  let n := name path in
  match PyStr.rfind "."%char n with
  | Some i =>
      if (0 <? i)%nat && (i <? String.length n - 1)%nat
      then substring 0 i n else n
  | None => n
  end.

End Pathlib.

(** ** The configuration catalog *)

Record mapping := {
  geographies : list string;
  prod_hier_filter : string
}.

(** A Python [dict] with string keys, in insertion order. *)
Definition dict (V : Type) := list (string * V).

Definition keys {V} (d : dict V) : list string := map fst d.

Fixpoint dict_get {V} (d : dict V) (k : string) : option V :=
  match d with
  | [] => None
  | (k', v) :: rest => if k' =? k then Some v else dict_get rest k
  end.

(** [d[k] = v]: an existing key keeps its position, a new key goes last. *)
Fixpoint dict_set {V} (d : dict V) (k : string) (v : V) : dict V :=
  match d with
  | [] => [(k, v)]
  | (k', v') :: rest =>
      if k' =? k then (k', v) :: rest else (k', v') :: dict_set rest k v
  end.

Definition BUILT_IN_MAPPINGS : dict mapping :=
  [ ("APROTEICI",
     {| geographies :=
          [ "Hypermarkets (7011)";
            "SSS (7013)";
            "Supermarkets (7012)";
            "Total Generalist Online (6100)";
            "Total Italy (inc. Discount) (7406)";
            "Total Italy + Pharma (4380)";
            "Total Italy Hyper+Super+Pharma (4301)";
            "Total Italy Pharma (3930)";
            "Total Italy+Pharma+Online (4397)" ];
        prod_hier_filter := "01-APROTEICO_3" |});
    ("INFANZIA",
     {| geographies :=
          [ "Discount (58)";
            "Hypermarkets (7011)";
            "SSS (7013)";
            "Supermarkets (7012)";
            "Total Generalist Online (6100)";
            "Total Italy (inc. Discount) (7406)";
            "Total Italy + Pharma (4380)";
            "Total Italy Hyper+Super+Pharma (4301)";
            "Total Italy Pharma (3930)";
            "Total Italy+Pharma+Online (4397)";
            "Traditionals (incl. Microm. <100mq) (7425)" ];
        prod_hier_filter := "02-CATEGORY_1" |});
    ("Sauces",
     {| geographies :=
          [ "Discount (58)";
            "Hypermarkets (7011)";
            "SSS (7013)";
            "Supermarkets (7012)";
            "Total Generalist Online (6100)";
            "Total Italy (inc. Discount) (7406)";
            "Traditionals (incl. Microm. <100mq) (7425)" ];
        prod_hier_filter := "01-CATEGORY_8" |});
    ("SALSE",
     {| geographies :=
          [ "Discount (58)";
            "Hypermarkets (7011)";
            "SSS (7013)";
            "Supermarkets (7012)";
            "Total Generalist Online (6100)";
            "Total Italy (inc. Discount) (7406)";
            "Traditionals (incl. Microm. <100mq) (7425)" ];
        prod_hier_filter := "02-CATEGORY_1" |});
    ("GLUTINE",
     {| geographies :=
          [ "Discount (58)";
            "Hypermarkets (7011)";
            "SSS (7013)";
            "Supermarkets (7012)";
            "Total Generalist Online (6100)";
            "Total Italy (inc. Discount) (7406)";
            "Total Italy + Pharma (4380)";
            "Total Italy Hyper+Super+Pharma (4301)";
            "Total Italy Pharma (3930)";
            "Total Italy+Pharma+Online (4397)";
            "Traditionals (incl. Microm. <100mq) (7425)" ];
        prod_hier_filter := "01-SENZA_GLUTINE_4" |}) ].

(** The comparator object: [self.threshold] and [self.mappings].  The
    [summary_stats] counters are written at the end of a comparison and never
    read back by the core; the values they receive are in the outcome. *)
Record StreamlitExcelComparator := {
  threshold : float;
  mappings : dict mapping
}.

(** [StreamlitExcelComparator()] *)
Definition default_comparator : StreamlitExcelComparator :=
  {| threshold := 0.01%float; mappings := BUILT_IN_MAPPINGS |}.

(** ** Cell values, exceptions and results *)

(** What a DataFrame cell or an index label holds.  [PyFloat] covers Python
    and numpy floats, [nan] included; [NaT] is pandas' missing timestamp and
    [Timestamp t] a point in time counted in some fixed unit from the epoch. *)
Inductive scalar :=
| PyNone
| PyFloat (f : float)
| PyInt (z : Z)
| PyStr (s : string)
| Timestamp (t : Z)
| NaT.

Inductive exn :=
| ValueError | TypeError | OverflowError | IndexError | KeyError | AttributeError.

Inductive result (A : Type) :=
| Ok (a : A)
| Raise (e : exn).
Arguments Ok {A} a.
Arguments Raise {A} e.

Definition bind {A B} (m : result A) (k : A -> result B) : result B :=
  match m with
  | Ok a => k a
  | Raise e => Raise e
  end.

Notation "x <- m ;; k" := (bind m (fun x => k))
  (at level 61, m at next level, right associativity).

Fixpoint mapM {A B} (f : A -> result B) (l : list A) : result (list B) :=
  match l with
  | [] => Ok []
  | x :: rest => y <- f x ;; ys <- mapM f rest ;; Ok (y :: ys)
  end.

Fixpoint foldM {A S} (f : S -> A -> result S) (l : list A) (s : S) : result S :=
  match l with
  | [] => Ok s
  | x :: rest => s' <- f s x ;; foldM f rest s'
  end.

(** The failures [compare_files] reports.  The Python code returns them as
    message strings; [error_msg] below renders each one. *)
Inductive failure :=
| UnmappedFile (missing_files : list string)
| PatternMismatch (pattern1 pattern2 : string)
| EmptyAfterFilter (filter_value : string)
| DateColumnNotFound
| ParseFailure
| NoCommonDates
| NoColumnsMatched
| ErrorDuringComparison (e : exn).

(** What Python and pandas supply: [float(s)] on a string ([None] for
    [ValueError]) and the parsing by [pd.to_datetime], day-first or not, of
    one non-null value of the column it is handed ([None] when it raises).
    The parser sees the whole column, since pandas may settle on one format
    for it, from its first non-null value, and hold the other values to that
    format. *)
Class PyRuntime := {
  float_of_str : string -> option float;
  parse_datetime : bool -> list scalar -> scalar -> option Z
}.

(** [pd.isna(v)] *)
Definition isna (v : scalar) : bool :=
  match v with
  | PyNone | NaT => true
  | PyFloat f => is_nan f
  | _ => false
  end.

(** [bool(v)]: a float is false only when it equals zero, so [nan] is true. *)
Definition truthy (v : scalar) : bool :=
  match v with
  | PyNone => false
  | PyFloat f => negb (f =? 0)%float
  | PyInt z => negb (z =? 0)%Z
  | PyStr s => negb (s =? EmptyString)
  | Timestamp _ | NaT => true
  end.

(** [v or 0] *)
Definition or_zero (v : scalar) : scalar := if truthy v then v else PyInt 0.

(** [float(z)] on an integer: rounded to nearest, [OverflowError] beyond the
    binary64 range. *)
Definition float_of_int (z : Z) : result float :=
  let f := SF2Prim (binary_normalize prec emax z 0 false) in
  if is_infinity f then Raise OverflowError else Ok f.

(** [x != y] on two cell values of which one is a string or a timestamp. *)
Definition py_ne (x y : scalar) : bool :=
  match x, y with
  | PyStr a, PyStr b => negb (a =? b)
  | Timestamp a, Timestamp b => negb (a =? b)%Z
  | PyInt a, PyInt b => negb (a =? b)%Z
  | PyFloat a, PyFloat b => negb (a =? b)%float
  | PyNone, PyNone => false
  | _, _ => true
  end.

(** ** DataFrames *)

Inductive Dtype := object | float64 | int64 | datetime64.

Definition is_object (d : Dtype) : bool :=
  match d with object => true | _ => false end.

(** A frame: the column header in declared order and the rows, each an index
    label with one cell per column. *)
Definition row := (scalar * list scalar)%type.

Record DataFrame := {
  header : list (string * Dtype);
  rows : list row
}.

(** [df.columns] *)
Definition columns (df : DataFrame) : list string := map fst (header df).

(** [df.index] *)
Definition index (df : DataFrame) : list scalar := map fst (rows df).

Fixpoint col_pos (name : string) (cols : list string) : option nat :=
  match cols with
  | [] => None
  | c :: rest =>
      if c =? name then Some 0%nat else option_map S (col_pos name rest)
  end.

(** [name in df.columns] *)
Definition has_column (df : DataFrame) (name : string) : bool :=
  existsb (String.eqb name) (columns df).

Definition cell (j : nat) (r : row) : scalar := nth j (snd r) PyNone.

Definition column_values (df : DataFrame) (j : nat) : list scalar :=
  map (cell j) (rows df).

Definition column_dtype (df : DataFrame) (j : nat) : Dtype :=
  snd (nth j (header df) (EmptyString, object)).

(** [df.empty]: no rows or no columns. *)
Definition empty (df : DataFrame) : bool :=
  (length (rows df) =? 0)%nat || (length (header df) =? 0)%nat.

Fixpoint set_nth {A} (j : nat) (x : A) (l : list A) : list A :=
  match l, j with
  | [], _ => []
  | _ :: rest, O => x :: rest
  | y :: rest, S j' => y :: set_nth j' x rest
  end.

Fixpoint remove_nth {A} (j : nat) (l : list A) : list A :=
  match l, j with
  | [], _ => []
  | _ :: rest, O => rest
  | y :: rest, S j' => y :: remove_nth j' rest
  end.

(** [df[name] = values]: an existing column is overwritten in place, a new
    one is appended. *)
Definition set_column (df : DataFrame) (name : string) (dt : Dtype)
    (values : list scalar) : DataFrame :=
  match col_pos name (columns df) with
  | Some j =>
      {| header := set_nth j (name, dt) (header df);
         rows := map (fun rv => (fst (fst rv), set_nth j (snd rv) (snd (fst rv))))
                     (combine (rows df) values) |}
  | None =>
      {| header := header df ++ [(name, dt)];
         rows := map (fun rv => (fst (fst rv), snd (fst rv) ++ [snd rv]))
                     (combine (rows df) values) |}
  end.

(** [df.set_index(name, inplace=True)]: the column becomes the index and
    leaves the columns. *)
Definition set_index (df : DataFrame) (name : string) : result DataFrame :=
  match col_pos name (columns df) with
  | Some j =>
      Ok {| header := remove_nth j (header df);
            rows := map (fun r => (cell j r, remove_nth j (snd r))) (rows df) |}
  | None => Raise KeyError
  end.

(** Equality of index labels. *)
Definition scalar_eqb (x y : scalar) : bool :=
  match x, y with
  | PyNone, PyNone => true
  | PyFloat a, PyFloat b => Leibniz.eqb a b
  | PyInt a, PyInt b => (a =? b)%Z
  | PyStr a, PyStr b => (a =? b)%string
  | Timestamp a, Timestamp b => (a =? b)%Z
  | NaT, NaT => true
  | _, _ => false
  end.

Definition label_in (d : scalar) (labels : list scalar) : bool :=
  existsb (scalar_eqb d) labels.

(** [Index.unique()]: first occurrences, in order. *)
Fixpoint unique (labels : list scalar) : list scalar :=
  match labels with
  | [] => []
  | d :: rest => d :: filter (fun x => negb (scalar_eqb d x)) (unique rest)
  end.

(** [a.intersection(b)] and [b.difference(a)]: both results hold each label
    once.  pandas may reorder the result; the model keeps the order of the
    receiver. *)
Definition index_intersection (a b : list scalar) : list scalar :=
  unique (filter (fun d => label_in d b) a).

Definition index_difference (b a : list scalar) : list scalar :=
  unique (filter (fun d => negb (label_in d a)) b).

(** [df.loc[labels]]: for each label in turn, the rows that carry it. *)
Definition loc (df : DataFrame) (labels : list scalar) : DataFrame :=
  {| header := header df;
     rows := flat_map (fun d => filter (fun r => scalar_eqb (fst r) d) (rows df))
                      labels |}.

(** [df.at[date, col]].  With a label carried by several rows pandas hands
    back a Series, on which [compare_values] raises [ValueError] at its first
    truth test; the model raises at the lookup. *)
Definition at_ (df : DataFrame) (date : scalar) (col : string) : result scalar :=
  match col_pos col (columns df) with
  | None => Raise KeyError
  | Some j =>
      match filter (fun r => scalar_eqb (fst r) date) (rows df) with
      | [] => Raise KeyError
      | [r] => Ok (cell j r)
      | _ => Raise ValueError
      end
  end.

(** ** The comparator's methods *)

Section Methods.

Context {rt : PyRuntime}.
Variable self : StreamlitExcelComparator.

(** *** Pattern matcher *)

(** The loop of [match_filename_to_mapping] over [self.mappings.keys()]. *)
Fixpoint first_pattern (patterns : list string) (filename_base : string)
    : option string :=
  match patterns with
  | [] => None
  | original_pattern :: rest =>
      let pattern_upper := PyStr.upper original_pattern in
      if PyStr.contains pattern_upper filename_base
      then Some original_pattern
      else first_pattern rest filename_base
  end.

Definition match_filename_to_mapping (filename : string) : option string :=
  let filename_base := PyStr.upper (Pathlib.stem filename) in
  first_pattern (keys (mappings self)) filename_base.

Definition missing_files_of (pattern1 pattern2 : option string)
    (file1_name file2_name : string) : list string :=
  (match pattern1 with
   | None => [("File 1: " ++ Pathlib.name file1_name)%string]
   | Some _ => []
   end) ++
  (match pattern2 with
   | None => [("File 2: " ++ Pathlib.name file2_name)%string]
   | Some _ => []
   end).

(** [validate_file_mappings] returns a triple of one of two shapes:
    [(pattern1, pattern1, None)] or [(None, None, error_msg)]. *)
Inductive validation :=
| Validated (pattern : string)
| Rejected (f : failure).

Definition validate_file_mappings (file1_name file2_name : string) : validation :=
  let pattern1 := match_filename_to_mapping file1_name in
  let pattern2 := match_filename_to_mapping file2_name in
  match pattern1, pattern2 with
  | Some p1, Some p2 =>
      if negb (p1 =? p2)%string
      then Rejected (PatternMismatch p1 p2)
      else Validated p1
  | _, _ =>
      Rejected (UnmappedFile
                  (missing_files_of pattern1 pattern2 file1_name file2_name))
  end.

Fixpoint enumerate_patterns (i : nat) (patterns : list string) : string :=
  match patterns with
  | [] => EmptyString
  | p :: rest =>
      ("  " ++ PyStr.of_nat i ++ ". " ++ p ++ PyStr.newline
       ++ enumerate_patterns (S i) rest)%string
  end.

(** The message text of each failure.  For a caught exception the text
    after the prefix is the library's own and is left out. *)
Definition error_msg (f : failure) : string :=
  match f with
  | UnmappedFile missing_files =>
      ("‚ùå No mapping found for: " ++ PyStr.join ", " missing_files
       ++ PyStr.newline ++ "Available mapping patterns:" ++ PyStr.newline
       ++ enumerate_patterns 1 (keys (mappings self)))%string
  | PatternMismatch pattern1 pattern2 =>
      ("‚ùå You have picked different files for comparison:" ++ PyStr.newline
       ++ "   File 1 pattern: " ++ pattern1 ++ PyStr.newline
       ++ "   File 2 pattern: " ++ pattern2 ++ PyStr.newline
       ++ "Please re-run the script with correct pairs for comparison.")%string
  | EmptyAfterFilter v =>
      ("No data remains after filtering by ProdHier = '" ++ v ++ "'")%string
  | DateColumnNotFound => "Could not find date columns in one or both files"
  | ParseFailure => "Could not parse dates from files"
  | NoCommonDates => "No common dates found between files"
  | NoColumnsMatched =>
      "No column mappings found. Please check your mapping configuration."
  | ErrorDuringComparison _ => "Error during comparison: "
  end.

(** *** Row filter *)

(** One entry of the mask [df['ProdHier'] == prod_hier_filter]. *)
Definition equals_str (v : scalar) (s : string) : bool :=
  match v with
  | PyStr a => (a =? s)%string
  | _ => false
  end.

(** [filter_extract_by_prodhier]; the warning it shows on an empty result
    goes to the user interface and is not part of the returned value. *)
Definition filter_extract_by_prodhier (df : DataFrame) (prod_hier_filter : string)
    : DataFrame :=
  match col_pos "ProdHier" (columns df) with
  | None => df
  | Some j =>
      {| header := header df;
         rows := filter (fun r => equals_str (cell j r) prod_hier_filter) (rows df) |}
  end.

(** *** Date resolver *)

Definition date_columns_to_try : list string :=
  ["Time"; "Date"; "PER_DESCRIPTION"; "Week ending"; "Period"].

Definition find_date_column (df : DataFrame) : option string :=
  find (has_column df) date_columns_to_try.

Definition is_digit (c : ascii) : bool :=
  let n := nat_of_ascii c in (48 <=? n)%nat && (n <=? 57)%nat.

Definition is_dash (c : ascii) : bool := Ascii.eqb c "-"%char.

(** The pattern [\d{2}-\d{2}-\d{4}] matched at the start of [s]. *)
Definition date_shape (s : string) : bool :=
  match s with
  | String d1 (String d2 (String s1 (String m1 (String m2 (String s2
      (String y1 (String y2 (String y3 (String y4 _))))))))) =>
      is_digit d1 && is_digit d2 && is_dash s1 && is_digit m1 && is_digit m2
      && is_dash s2 && is_digit y1 && is_digit y2 && is_digit y3 && is_digit y4
  | _ => false
  end.

(** The leftmost match of the pattern in [s]. *)
Fixpoint extract_date (s : string) : option string :=
  if date_shape s then Some (substring 0 10 s)
  else match s with
       | EmptyString => None
       | String _ r => extract_date r
       end.

(** One entry of [col.str.extract(r'(\d{2}-\d{2}-\d{4})')[0]]: the captured
    text, [nan] where nothing matches or the value is no string. *)
Definition str_extract (v : scalar) : scalar :=
  match v with
  | PyStr s =>
      match extract_date s with
      | Some d => PyStr d
      | None => PyFloat nan
      end
  | _ => PyFloat nan
  end.

(** ['Week ending' in str(v)].  The text of a number, of [None], of [nan],
    of a timestamp or of [NaT] holds no letter sequence of that kind, so
    only a string can contain it. *)
Definition mentions_week_ending (v : scalar) : bool :=
  match v with
  | PyStr s => PyStr.contains "Week ending" s
  | _ => false
  end.

(** [pd.to_datetime] on one value of the column [column], with the default
    [errors='raise']. *)
Definition to_datetime_value (dayfirst : bool) (column : list scalar)
    (v : scalar) : result scalar :=
  if isna v then Ok NaT
  else match v with
       | Timestamp _ => Ok v
       | _ =>
           match parse_datetime dayfirst column v with
           | Some t => Ok (Timestamp t)
           | None => Raise ValueError
           end
       end.

(** [pd.to_datetime] on a column: one value that does not parse raises. *)
Definition to_datetime (dayfirst : bool) (values : list scalar)
    : result (list scalar) :=
  mapM (to_datetime_value dayfirst values) values.

(** [col.iloc[0]] *)
Definition iloc0 (values : list scalar) : result scalar :=
  match values with
  | [] => Raise IndexError
  | v :: _ => Ok v
  end.

(** The test of [parse_dates]:
    [df[col].dtype == 'object' and 'Week ending' in str(df[col].iloc[0])]. *)
Definition week_ending_test (dt : Dtype) (values : list scalar) : result bool :=
  if is_object dt
  then first <- iloc0 values ;; Ok (mentions_week_ending first)
  else Ok false.

(** The body of the [try] in [parse_dates]: the values assigned to
    [df['Date']]. *)
Definition parsed_dates (dt : Dtype) (values : list scalar)
    : result (list scalar) :=
  week_ending <- week_ending_test dt values ;;
  if (week_ending : bool)
  then to_datetime true (map str_extract values)
  else to_datetime false values.

(** [parse_dates]: on any exception the frame comes back as it was. *)
Definition parse_dates (df : DataFrame) (col_name : string) : DataFrame :=
  match col_pos col_name (columns df) with
  | None => df
  | Some j =>
      match parsed_dates (column_dtype df j) (column_values df j) with
      | Ok dates => set_column df "Date" datetime64 dates
      | Raise _ => df
      end
  end.

(** *** Cell comparison *)

(** [float(v)] *)
Definition py_float (v : scalar) : result float :=
  match v with
  | PyFloat f => Ok f
  | PyInt z => float_of_int z
  | PyStr s =>
      match float_of_str s with
      | Some f => Ok f
      | None => Raise ValueError
      end
  | PyNone | Timestamp _ | NaT => Raise TypeError
  end.

(** [compare_values]: the pair [(is_different, difference)], where
    [is_different] is [None], [True] or [False].  The [try] catches
    [ValueError] and [TypeError] only; the literal [0] of the first and last
    [return] is the float zero here. *)
Definition compare_values (val1 val2 : scalar) : result (option bool * float) :=
  if isna val1 && isna val2 then Ok (None, 0%float)
  else if isna val1 || isna val2 then
    f1 <- py_float (or_zero val1) ;;
    f2 <- py_float (or_zero val2) ;;
    Ok (Some true, abs (f1 - f2))
  else
    match (v1 <- py_float val1 ;; v2 <- py_float val2 ;; Ok (v1, v2)) with
    | Ok (v1, v2) =>
        let diff := abs (v1 - v2) in
        Ok (Some (threshold self <? diff)%float, diff)
    | Raise ValueError | Raise TypeError => Ok (Some (py_ne val1 val2), 0%float)
    | Raise e => Raise e
    end.

(** *** Column aligner *)

(** The test of both inner loops of [get_column_mapping]. *)
Definition column_matches (target_col col : string) : bool :=
  (PyStr.lower target_col =? PyStr.lower col)%string
  || PyStr.contains (PyStr.lower target_col) (PyStr.lower col)
  || PyStr.contains (PyStr.lower col) (PyStr.lower target_col).

(** The same test as a proposition: equal, or one contained in the other,
    after lower-casing. *)
Definition matches_ci (target_col col : string) : Prop :=
  PyStr.lower target_col = PyStr.lower col
  \/ PyStr.occurs_in (PyStr.lower target_col) (PyStr.lower col)
  \/ PyStr.occurs_in (PyStr.lower col) (PyStr.lower target_col).

(** [for col in cols: if ...: match = col; break] *)
Definition first_match (target_col : string) (cols : list string) : option string :=
  find (column_matches target_col) cols.

(** The truth value of [col1_match] in [if col1_match and col2_match]. *)
Definition found (m : option string) : bool :=
  match m with
  | Some c => negb (c =? EmptyString)%string
  | None => false
  end.

(** One round of the loop over the target columns. *)
Definition align_target (df1_cols df2_cols : list string)
    (column_map : dict string) (target_col : string) : dict string :=
  let col1_match := first_match target_col df1_cols in
  let col2_match := first_match target_col df2_cols in
  match col1_match, col2_match with
  | Some c1, Some c2 =>
      if found col1_match && found col2_match
      then dict_set column_map c1 c2
      else column_map
  | _, _ => column_map
  end.

Definition get_column_mapping (mapping_pattern : string)
    (df1_cols df2_cols : list string) : dict string :=
  match dict_get (mappings self) mapping_pattern with
  | None => []
  | Some m => fold_left (align_target df1_cols df2_cols) (geographies m) []
  end.

(** *** Reconciliation engine *)

(** One row of the mismatch list.  [date] stands for the text
    [date.strftime('%Y-%m-%d')], a function of the timestamp. *)
Record MismatchRecord := {
  date : Z;
  column_file_1 : string;
  value_file_1 : scalar;
  column_file_2 : string;
  value_file_2 : scalar;
  difference : float;
  above_threshold : bool
}.

Record LoopState := {
  mismatch_rows : list MismatchRecord;
  total_comparisons : nat;
  significant_differences : nat
}.

(** [date.strftime(...)]: defined on a timestamp, [ValueError] on [NaT],
    and no such method on any other label. *)
Definition strftime (d : scalar) : result Z :=
  match d with
  | Timestamp t => Ok t
  | NaT => Raise ValueError
  | _ => Raise AttributeError
  end.

(** The truth value of [is_different]. *)
Definition is_true (b : option bool) : bool :=
  match b with
  | Some true => true
  | _ => false
  end.

(** The test [is_different and difference > self.threshold]. *)
Definition significant (is_different : option bool) (diff : float) : bool :=
  is_true is_different && (threshold self <? diff)%float.

(** The body of the inner loop, from the two values on. *)
Definition record_comparison (col1 col2 : string) (d : scalar)
    (val1 val2 : scalar) (st : LoopState) : result LoopState :=
  let total := S (total_comparisons st) in
  cmp <- compare_values val1 val2 ;;
  if significant (fst cmp) (snd cmp)
  then
    day <- strftime d ;;
    Ok {| mismatch_rows :=
            mismatch_rows st ++
            [ {| date := day;
                 column_file_1 := col1; value_file_1 := val1;
                 column_file_2 := col2; value_file_2 := val2;
                 difference := snd cmp; above_threshold := true |} ];
          total_comparisons := total;
          significant_differences := S (significant_differences st) |}
  else
    Ok {| mismatch_rows := mismatch_rows st;
          total_comparisons := total;
          significant_differences := significant_differences st |}.

Definition compare_cell (df1_aligned df2_aligned : DataFrame)
    (cols : string * string) (st : LoopState) (d : scalar) : result LoopState :=
  val1 <- at_ df1_aligned d (fst cols) ;;
  val2 <- at_ df2_aligned d (snd cols) ;;
  record_comparison (fst cols) (snd cols) d val1 val2 st.

(** [for col1, col2 in column_map.items(): for date in common_dates: ...] *)
Definition compare_columns (df1_aligned df2_aligned : DataFrame)
    (column_map : dict string) (common_dates : list scalar) : result LoopState :=
  foldM (fun st cols => foldM (compare_cell df1_aligned df2_aligned cols) common_dates st)
        column_map
        {| mismatch_rows := []; total_comparisons := 0;
           significant_differences := 0 |}.

(** A comparison that ends in the mismatch list as the row [r]: the pair
    was judged different and its difference is above the threshold. *)
Definition flagged (df1_aligned df2_aligned : DataFrame)
    (cols : string * string) (d : scalar) (r : MismatchRecord) : Prop :=
  exists val1 val2 is_different diff day,
    at_ df1_aligned d (fst cols) = Ok val1 /\
    at_ df2_aligned d (snd cols) = Ok val2 /\
    compare_values val1 val2 = Ok (is_different, diff) /\
    is_true is_different = true /\
    (threshold self <? diff)%float = true /\
    strftime d = Ok day /\
    r = {| date := day;
           column_file_1 := fst cols; value_file_1 := val1;
           column_file_2 := snd cols; value_file_2 := val2;
           difference := diff; above_threshold := true |}.

(** What [compare_files] hands to [generate_report]. *)
Record ComparisonOutcome := {
  mismatches : list MismatchRecord;
  total : nat;
  significant_count : nat;
  common_dates : list scalar;
  new_dates : list scalar;
  matched_pattern : string;
  category_filter : string
}.

Inductive verdict :=
| Compared (o : ComparisonOutcome)
| Failed (f : failure).

(** The part of [compare_files] from the two date-indexed frames up to the
    end of the comparison loop (lines 327-366).  [Compared o] says that the
    loop went through and gives its figures; the workbook and the summary
    that [compare_files] builds from them afterwards ([generate_report] and
    the formatting of the first and last common date) are not modelled. *)
Definition reconcile (mapping_pattern filter_value : string)
    (df1 df2_filtered : DataFrame) : verdict :=
  let common := index_intersection (index df1) (index df2_filtered) in
  let new := index_difference (index df2_filtered) (index df1) in
  if (length common =? 0)%nat then Failed NoCommonDates
  else
    let df1_aligned := loc df1 common in
    let df2_aligned := loc df2_filtered common in
    let column_map :=
      get_column_mapping mapping_pattern (columns df1_aligned) (columns df2_aligned) in
    match column_map with
    | [] => Failed NoColumnsMatched
    | _ =>
        match compare_columns df1_aligned df2_aligned column_map common with
        | Raise e => Failed (ErrorDuringComparison e)
        | Ok st =>
            Compared {| mismatches := mismatch_rows st;
                        total := total_comparisons st;
                        significant_count := significant_differences st;
                        common_dates := common;
                        new_dates := new;
                        matched_pattern := mapping_pattern;
                        category_filter := filter_value |}
        end
    end.

(** [compare_files] on the two loaded frames: [df1] read from the UNIFY
    file, [df2] from the EXTRACT file.  Every exception inside is caught by
    the function's own [except Exception].  The candidate names of
    [find_date_column] are non-empty, so [not df1_date_col] holds for [None]
    only. *)
Definition compare_files (unify_name extract_name : string)
    (df1 df2 : DataFrame) : verdict :=
  match validate_file_mappings unify_name extract_name with
  | Rejected f => Failed f
  | Validated mapping_pattern =>
      match dict_get (mappings self) mapping_pattern with
      | None => Failed (ErrorDuringComparison KeyError)
      | Some m =>
          let filter_value := prod_hier_filter m in
          let df2_filtered := filter_extract_by_prodhier df2 filter_value in
          if empty df2_filtered then Failed (EmptyAfterFilter filter_value)
          else
            match find_date_column df1, find_date_column df2_filtered with
            | Some df1_date_col, Some df2_date_col =>
                let df1 := parse_dates df1 df1_date_col in
                let df2_filtered := parse_dates df2_filtered df2_date_col in
                if has_column df1 "Date" && has_column df2_filtered "Date" then
                  match set_index df1 "Date", set_index df2_filtered "Date" with
                  | Ok df1, Ok df2_filtered =>
                      reconcile mapping_pattern filter_value df1 df2_filtered
                  | Raise e, _ | _, Raise e => Failed (ErrorDuringComparison e)
                  end
                else Failed ParseFailure
            | _, _ => Failed DateColumnNotFound
            end
      end
  end.

End Methods.

(** ** Report highlighting *)

Section Report.

Context {rt : PyRuntime}.
Variable self : StreamlitExcelComparator.

(** The data rows of a worksheet, the header row left out: each row lists
    the values of its cells in column order, [None] for an empty cell. *)
Definition worksheet := list (list scalar).

(** [worksheet.cell(row=row, column=6).value]: the [Difference] column. *)
Definition difference_cell (cells : list scalar) : scalar := nth 5 cells PyNone.

(** [diff_cell.value and float(diff_cell.value) > self.threshold] *)
Definition cell_above_threshold (v : scalar) : result bool :=
  if truthy v then f <- py_float v ;; Ok (threshold self <? f)%float
  else Ok false.

(** [highlight_differences_in_writer]: for each data row, whether it is
    filled.  An exception ends the loop: the rows filled before it stay
    filled, the row that raised and the rows after it are not. *)
Fixpoint highlight_differences_in_writer (ws : worksheet) : list bool :=
  match ws with
  | [] => []
  | cells :: rest =>
      match cell_above_threshold (difference_cell cells) with
      | Ok fill => fill :: highlight_differences_in_writer rest
      | Raise _ => map (fun _ => false) ws
      end
  end.

End Report.

(** ** The stages of a comparison *)

Section StagesOfRun.

Context {rt : PyRuntime}.
Variable self : StreamlitExcelComparator.

(** What a run of [compare_files] comes to, stage by stage. *)
Inductive stage (unify_name extract_name : string) (df1 df2 : DataFrame)
    : verdict -> Prop :=
| stage_rejected f :
    validate_file_mappings self unify_name extract_name = Rejected f ->
    stage unify_name extract_name df1 df2 (Failed f)
| stage_empty p m :
    validate_file_mappings self unify_name extract_name = Validated p ->
    dict_get (mappings self) p = Some m ->
    empty (filter_extract_by_prodhier df2 (prod_hier_filter m)) = true ->
    stage unify_name extract_name df1 df2 (Failed (EmptyAfterFilter (prod_hier_filter m)))
| stage_no_date_column p m :
    validate_file_mappings self unify_name extract_name = Validated p ->
    dict_get (mappings self) p = Some m ->
    empty (filter_extract_by_prodhier df2 (prod_hier_filter m)) = false ->
    find_date_column df1 = None \/
    find_date_column (filter_extract_by_prodhier df2 (prod_hier_filter m)) = None ->
    stage unify_name extract_name df1 df2 (Failed DateColumnNotFound)
| stage_unparsed p m c1 c2 :
    validate_file_mappings self unify_name extract_name = Validated p ->
    dict_get (mappings self) p = Some m ->
    empty (filter_extract_by_prodhier df2 (prod_hier_filter m)) = false ->
    find_date_column df1 = Some c1 ->
    find_date_column (filter_extract_by_prodhier df2 (prod_hier_filter m)) = Some c2 ->
    has_column (parse_dates df1 c1) "Date" = false \/
    has_column (parse_dates (filter_extract_by_prodhier df2 (prod_hier_filter m)) c2)
               "Date" = false ->
    stage unify_name extract_name df1 df2 (Failed ParseFailure)
| stage_reconciled p m c1 c2 indexed1 indexed2 :
    validate_file_mappings self unify_name extract_name = Validated p ->
    dict_get (mappings self) p = Some m ->
    empty (filter_extract_by_prodhier df2 (prod_hier_filter m)) = false ->
    find_date_column df1 = Some c1 ->
    find_date_column (filter_extract_by_prodhier df2 (prod_hier_filter m)) = Some c2 ->
    set_index (parse_dates df1 c1) "Date" = Ok indexed1 ->
    set_index (parse_dates (filter_extract_by_prodhier df2 (prod_hier_filter m)) c2)
              "Date" = Ok indexed2 ->
    stage unify_name extract_name df1 df2
          (reconcile self p (prod_hier_filter m) indexed1 indexed2).

End StagesOfRun.

(** ** Shapes of data the properties speak of *)

(** A cell that holds a float or nothing. *)
Definition float_or_none (v : scalar) : Prop :=
  match v with
  | PyFloat _ | PyNone => True
  | _ => False
  end.

(** Every cell of the column [col] of [df] holds a float or nothing. *)
Definition float_column (df : DataFrame) (col : string) : Prop :=
  forall j r, col_pos col (columns df) = Some j -> In r (rows df) ->
              float_or_none (cell j r).

(** The expected name [target_col] stores the pair [(c1, c2)]: its first
    matches in the two column lists, neither of them the empty name. *)
Definition stores_pair (df1_cols df2_cols : list string)
    (target_col c1 c2 : string) : Prop :=
  first_match target_col df1_cols = Some c1 /\
  first_match target_col df2_cols = Some c2 /\
  c1 <> EmptyString /\ c2 <> EmptyString.

(** The expected name [target_col] stores some pair under the key [c1]. *)
Definition writes_key (df1_cols df2_cols : list string)
    (target_col c1 : string) : Prop :=
  exists c2, stores_pair df1_cols df2_cols target_col c1 c2.

(** The exceptions a comparison can end on. *)
Definition comparison_exception (e : exn) : Prop :=
  e = ValueError \/ e = TypeError \/ e = OverflowError \/ e = AttributeError.

(** A label that is a timestamp. *)
Definition is_timestamp (d : scalar) : Prop := exists t, d = Timestamp t.

(** A label that is a timestamp or [NaT]. *)
Definition is_datetime (d : scalar) : Prop := d = NaT \/ is_timestamp d.

(** ** A concrete runtime for closed examples

    Integer literals for [float(s)]; ISO [YYYY-MM-DD] texts, or [DD-MM-YYYY]
    texts when day-first, for [pd.to_datetime], whatever the column.  Timestamps count days from
    1970-01-01.  The theorems below hold for every runtime; this one only
    lets the examples run. *)

Module Sample.

Definition digit_value (c : ascii) : option Z :=
  let n := nat_of_ascii c in
  if (48 <=? n)%nat && (n <=? 57)%nat then Some (Z.of_nat n - 48)%Z else None.

Fixpoint digits_value (acc : Z) (s : string) : option Z :=
  match s with
  | EmptyString => Some acc
  | String c r =>
      match digit_value c with
      | Some v => digits_value (10 * acc + v) r
      | None => None
      end
  end.

Definition number_of (s : string) : option Z :=
  match s with
  | EmptyString => None
  | _ => digits_value 0 s
  end.

Definition is_leap (y : Z) : bool :=
  ((y mod 4 =? 0) && negb (y mod 100 =? 0) || (y mod 400 =? 0))%Z.

Definition days_in_month (y m : Z) : Z :=
  if (m =? 2)%Z then (if is_leap y then 29 else 28)%Z
  else if ((m =? 4) || (m =? 6) || (m =? 9) || (m =? 11))%Z then 30%Z
  else 31%Z.

Definition days_from_civil (y m d : Z) : Z :=
  let y := (if m <=? 2 then y - 1 else y)%Z in
  let era := (y / 400)%Z in
  let yoe := (y - era * 400)%Z in
  let doy := ((153 * (if 2 <? m then m - 3 else m + 9) + 2) / 5 + d - 1)%Z in
  let doe := (yoe * 365 + yoe / 4 - yoe / 100 + doy)%Z in
  (era * 146097 + doe - 719468)%Z.

Definition date_of (y m d : Z) : option Z :=
  if ((1 <=? m) && (m <=? 12) && (1 <=? d) && (d <=? days_in_month y m))%Z
  then Some (days_from_civil y m d) else None.

Definition field (start len : nat) (s : string) : option Z :=
  number_of (substring start len s).

Definition dashes_at (i j : nat) (s : string) : bool :=
  match get i s, get j s with
  | Some a, Some b => Ascii.eqb a "-"%char && Ascii.eqb b "-"%char
  | _, _ => false
  end.

Definition parse_dmy (s : string) : option Z :=
  if (String.length s =? 10)%nat && dashes_at 2 5 s then
    match field 0 2 s, field 3 2 s, field 6 4 s with
    | Some d, Some m, Some y => date_of y m d
    | _, _, _ => None
    end
  else None.

Definition parse_ymd (s : string) : option Z :=
  if (String.length s =? 10)%nat && dashes_at 4 7 s then
    match field 0 4 s, field 5 2 s, field 8 2 s with
    | Some y, Some m, Some d => date_of y m d
    | _, _, _ => None
    end
  else None.

Definition date_text (dayfirst : bool) (column : list scalar) (v : scalar)
    : option Z :=
  match v with
  | PyStr s => if dayfirst then parse_dmy s else parse_ymd s
  | _ => None
  end.

Definition int_literal (s : string) : option float :=
  let magnitude (z : option Z) (sign : Z) :=
    match z with
    | Some n =>
        match float_of_int (sign * n) with
        | Ok f => Some f
        | Raise _ => None
        end
    | None => None
    end in
  match s with
  | String "-"%char r => magnitude (number_of r) (-1)%Z
  | _ => magnitude (number_of s) 1%Z
  end.

Definition runtime : PyRuntime :=
  {| float_of_str := int_literal; parse_datetime := date_text |}.

(** Example data: a UNIFY frame, an EXTRACT frame, and the UNIFY frame with
    a totals line under its dates. *)
Definition unify_name : string := "1. Check_Model_Custom_APROTEICI (33).xlsx".
Definition extract_name : string := "IT_2393_APROTEICI_D156.xlsx".

Definition unify : DataFrame :=
  {| header := [("Time", object); ("Hypermarkets (7011)", float64)];
     rows := [ (PyInt 0, [PyStr "2024-01-01"; PyFloat 100]);
               (PyInt 1, [PyStr "2024-01-08"; PyFloat 50]) ] |}.

Definition extract : DataFrame :=
  {| header := [("ProdHier", object); ("PER_DESCRIPTION", object);
                ("HYPERMARKETS (7011)", float64)];
     rows := [ (PyInt 0, [PyStr "01-APROTEICO_3"; PyStr "Week ending 08-01-2024";
                          PyFloat 50.02]);
               (PyInt 1, [PyStr "01-APROTEICO_3"; PyStr "Week ending 15-01-2024";
                          PyFloat 7]);
               (PyInt 2, [PyStr "02-CATEGORY_1"; PyStr "Week ending 01-01-2024";
                          PyFloat 7]) ] |}.

(** The first two frames once indexed by date and restricted to their
    common date. *)
Definition unify_aligned : DataFrame :=
  {| header := [("Time", object); ("Hypermarkets (7011)", float64)];
     rows := [ (Timestamp 19730, [PyStr "2024-01-08"; PyFloat 50]) ] |}.

Definition extract_aligned : DataFrame :=
  {| header := [("ProdHier", object); ("PER_DESCRIPTION", object);
                ("HYPERMARKETS (7011)", float64)];
     rows := [ (Timestamp 19730, [PyStr "01-APROTEICO_3";
                                  PyStr "Week ending 08-01-2024"; PyFloat 50.02]) ] |}.

Definition unify_with_total : DataFrame :=
  {| header := [("Time", object); ("Hypermarkets (7011)", float64)];
     rows := [ (PyInt 0, [PyStr "2024-01-01"; PyFloat 100]);
               (PyInt 1, [PyStr "2024-01-08"; PyFloat 50]);
               (PyInt 2, [PyStr "Total"; PyFloat 150]) ] |}.

End Sample.

(** ** Further example data *)

Module Cases.

(** The EXTRACT name in lower case with an upper-case extension. *)
Definition extract_name_other_case : string := "it_2393_aproteici_d156.XLSX".

(** A name that matches no catalog entry. *)
Definition unknown_name : string := "budget_2024.xlsx".

(** A UNIFY frame in which one date comes twice. *)
Definition unify_repeated_date : DataFrame :=
  {| header := [("Time", object); ("Hypermarkets (7011)", float64)];
     rows := [ (PyInt 0, [PyStr "2024-01-08"; PyFloat 100]);
               (PyInt 1, [PyStr "2024-01-08"; PyFloat 50]) ] |}.

(** Aligned frames in which a text stands against an empty cell. *)
Definition unify_text_aligned : DataFrame :=
  {| header := [("Time", object); ("Hypermarkets (7011)", object)];
     rows := [ (Timestamp 19730, [PyStr "2024-01-08"; PyStr "n.a."]) ] |}.

Definition extract_gap_aligned : DataFrame :=
  {| header := [("ProdHier", object); ("PER_DESCRIPTION", object);
                ("HYPERMARKETS (7011)", float64)];
     rows := [ (Timestamp 19730, [PyStr "01-APROTEICO_3";
                                  PyStr "Week ending 08-01-2024"; PyFloat nan]) ] |}.

(** Column lists in which the first frame has one [Total Italy] column. *)
Definition short_columns : list string := ["Time"; "Total Italy"].

Definition full_columns : list string :=
  ["Total Italy (inc. Discount) (7406)"; "Total Italy + Pharma (4380)";
   "Total Italy Hyper+Super+Pharma (4301)"; "Total Italy Pharma (3930)";
   "Total Italy+Pharma+Online (4397)"].


(** One column on each side: the first selected by five expected names of
    [APROTEICI], the second matched by one of them only. *)
Definition lone_unify_column : list string := ["Total Italy"].

Definition lone_extract_column : list string := ["Total Italy + Pharma (4380)"].

End Cases.

(** * Properties *)

(** ** Substring tests *)

Section StringFacts.

Lemma prefix_splits (p s : string) :
  prefix p s = true <-> exists rest : string, s = (p ++ rest)%string.
Proof.
  revert s; induction p as [|a p IH]; intros [|b s]; simpl.
  - split; [intros _; now exists EmptyString | reflexivity].
  - split; [intros _; now exists (String b s) | reflexivity].
  - split; [discriminate | intros [rest H]; discriminate].
  - destruct (ascii_dec a b) as [->|Hab].
    + rewrite IH. split; intros [rest H]; exists rest.
      * now rewrite H.
      * now injection H.
    + split; [discriminate | intros [rest H]; injection H; intros; congruence].
Qed.

Lemma contains_occurs (p s : string) :
  PyStr.contains p s = true <-> PyStr.occurs_in p s.
Proof.
  unfold PyStr.occurs_in.
  induction s as [|c s IH]; cbn [PyStr.contains].
  - rewrite orb_false_r, prefix_splits. split.
    + intros [rest H]. now exists EmptyString, rest.
    + intros [[|x before] [after H]]; [now exists after | discriminate].
  - rewrite orb_true_iff, prefix_splits, IH. split.
    + intros [[rest H] | [before [after H]]].
      * now exists EmptyString, rest.
      * exists (String c before), after. simpl. now rewrite H.
    + intros [[|x before] [after H]].
      * left. now exists after.
      * right. exists before, after. simpl in H. now injection H.
Qed.

Lemma contains_absent (p s : string) :
  PyStr.contains p s = false <-> ~ PyStr.occurs_in p s.
Proof.
  rewrite <- contains_occurs. destruct (PyStr.contains p s); split; congruence.
Qed.

End StringFacts.

(** ** Stems of plain file names *)

Section PathFacts.

Lemma split_without_separator (sep : ascii) (s : string) :
  PyStr.rfind sep s = None -> PyStr.split sep s = [s].
Proof.
  induction s as [|c s IH]; simpl; [reflexivity|].
  destruct (PyStr.rfind sep s); [discriminate|].
  destruct (Ascii.eqb c sep); [discriminate|].
  intros _. now rewrite IH.
Qed.

Lemma rfind_append_absent (c : ascii) (s t : string) :
  PyStr.rfind c s = None -> PyStr.rfind c t = None ->
  PyStr.rfind c (s ++ t)%string = None.
Proof.
  intros Hs Ht. induction s as [|a s IH]; simpl in *; [exact Ht|].
  destruct (PyStr.rfind c s); [discriminate|].
  rewrite IH by reflexivity. exact Hs.
Qed.

Lemma rfind_last_occurrence (c : ascii) (s t : string) :
  PyStr.rfind c t = None ->
  PyStr.rfind c (s ++ String c t)%string = Some (String.length s).
Proof.
  intros Ht. induction s as [|a s IH]; simpl.
  - now rewrite Ht, Ascii.eqb_refl.
  - now rewrite IH.
Qed.

Lemma substring_prefix_part (s t : string) :
  substring 0 (String.length s) (s ++ t)%string = s.
Proof.
  induction s as [|a s IH]; simpl.
  - now destruct t.
  - now rewrite IH.
Qed.

Lemma length_of_append (s t : string) :
  String.length (s ++ t)%string = String.length s + String.length t.
Proof. induction s as [|a s IH]; simpl; [reflexivity | now rewrite IH]. Qed.

(** A name [base.ext] with no slash, a non-empty [base] and a non-empty
    [ext] free of dots: its stem is [base]. *)
Lemma stem_strips_extension (base ext : string) :
  base <> EmptyString -> ext <> EmptyString ->
  PyStr.rfind "/"%char base = None -> PyStr.rfind "/"%char ext = None ->
  PyStr.rfind "."%char ext = None ->
  Pathlib.stem (base ++ String "."%char ext)%string = base.
Proof.
  intros Hbase Hext Hb He Hdot.
  assert (Pathlib.name (base ++ String "."%char ext)%string
          = (base ++ String "."%char ext)%string) as Hname.
  { unfold Pathlib.name, Pathlib.parts.
    rewrite split_without_separator.
    - destruct base as [|a base]; [contradiction|]. simpl.
      destruct (Ascii.eqb a "."%char); [|reflexivity].
      now destruct base.
    - apply rfind_append_absent; [exact Hb|].
      simpl. now rewrite He. }
  unfold Pathlib.stem. rewrite Hname, rfind_last_occurrence by exact Hdot.
  rewrite length_of_append. simpl String.length.
  assert ((0 <? String.length base)%nat = true) as H0.
  { destruct base; [contradiction | reflexivity]. }
  assert ((String.length base <? String.length base + S (String.length ext) - 1)%nat = true) as H1.
  { apply Nat.ltb_lt. destruct ext; [contradiction | simpl; lia]. }
  rewrite H0, H1. apply substring_prefix_part.
Qed.

End PathFacts.

(** ** First match in declared order *)

Section FirstMatch.

Variable A : Type.
Variable test : A -> bool.

(** [find] returns the first element, in list order, that passes the test. *)
Lemma find_first (l : list A) (x : A) :
  find test l = Some x <->
  exists before after,
    l = before ++ x :: after /\ test x = true /\
    forall y, In y before -> test y = false.
Proof.
  induction l as [|a l IH]; simpl.
  - split; [discriminate | intros [[|? ?] [? [H _]]]; discriminate].
  - destruct (test a) eqn:Ha.
    + split.
      * intros [= ->]. exists [], l. repeat split; [assumption | intros ? []].
      * intros [[|b before] [after [H [Hx Hb]]]].
        -- now injection H as ->.
        -- injection H as -> _. specialize (Hb b (or_introl eq_refl)). congruence.
    + rewrite IH. split.
      * intros [before [after [-> [Hx Hb]]]].
        exists (a :: before), after. repeat split; [assumption|].
        intros y [<-|Hy]; auto.
      * intros [[|b before] [after [H [Hx Hb]]]].
        -- injection H as -> _. congruence.
        -- injection H as _ ->. exists before, after.
           repeat split; [assumption|]. intros y Hy. apply Hb. now right.
Qed.

Lemma find_nothing (l : list A) :
  find test l = None <-> forall y, In y l -> test y = false.
Proof.
  induction l as [|a l IH]; simpl.
  - split; [intros _ ? [] | reflexivity].
  - destruct (test a) eqn:Ha.
    + split; [discriminate | intros H; specialize (H a (or_introl eq_refl)); congruence].
    + rewrite IH. split.
      * intros H y [<-|Hy]; auto.
      * intros H y Hy. apply H. now right.
Qed.

End FirstMatch.

(** ** Pattern matcher *)

Section Matcher.

Variable self : StreamlitExcelComparator.

Lemma first_pattern_find (patterns : list string) (base : string) :
  first_pattern patterns base =
  find (fun p => PyStr.contains (PyStr.upper p) base) patterns.
Proof.
  induction patterns as [|p ps IH]; simpl; [reflexivity|].
  now destruct (PyStr.contains (PyStr.upper p) base).
Qed.

(** C4: [match_filename_to_mapping] returns the first catalog name, in
    declaration order, whose upper-cased form occurs in the upper-cased
    stem of the filename, and [None] exactly when no catalog name does; for
    a plain name [base.ext] the stem searched is [base], the extension being
    stripped.  Being a function of the filename and the catalog, it is
    deterministic. *)
Theorem match_filename_first_entry (filename : string) :
  let stem_upper := PyStr.upper (Pathlib.stem filename) in
  (forall p,
      match_filename_to_mapping self filename = Some p <->
      exists before after,
        keys (mappings self) = before ++ p :: after /\
        PyStr.occurs_in (PyStr.upper p) stem_upper /\
        forall q, In q before -> ~ PyStr.occurs_in (PyStr.upper q) stem_upper) /\
  (match_filename_to_mapping self filename = None <->
   forall q, In q (keys (mappings self)) ->
             ~ PyStr.occurs_in (PyStr.upper q) stem_upper) /\
  (forall base ext,
      filename = (base ++ String "."%char ext)%string ->
      base <> EmptyString -> ext <> EmptyString ->
      PyStr.rfind "/"%char base = None -> PyStr.rfind "/"%char ext = None ->
      PyStr.rfind "."%char ext = None ->
      stem_upper = PyStr.upper base).
Proof.
  intros stem_upper.
  assert (forall base ext,
      filename = (base ++ String "."%char ext)%string ->
      base <> EmptyString -> ext <> EmptyString ->
      PyStr.rfind "/"%char base = None -> PyStr.rfind "/"%char ext = None ->
      PyStr.rfind "."%char ext = None ->
      stem_upper = PyStr.upper base) as Hstem.
  { intros base ext -> Hb He Hsb Hse Hdot. unfold stem_upper.
    now rewrite stem_strips_extension. }
  cut ((forall p,
      match_filename_to_mapping self filename = Some p <->
      exists before after,
        keys (mappings self) = before ++ p :: after /\
        PyStr.occurs_in (PyStr.upper p) stem_upper /\
        forall q, In q before -> ~ PyStr.occurs_in (PyStr.upper q) stem_upper) /\
    (match_filename_to_mapping self filename = None <->
     forall q, In q (keys (mappings self)) ->
               ~ PyStr.occurs_in (PyStr.upper q) stem_upper)).
  { intros [H1 H2]. split; [exact H1 | split; [exact H2 | exact Hstem]]. }
  clear Hstem. unfold match_filename_to_mapping.
  fold stem_upper. rewrite first_pattern_find. split.
  - intros p. rewrite find_first. split.
    + intros [before [after [Hk [Hp Hb]]]]. exists before, after.
      repeat split; [assumption | now apply contains_occurs |].
      intros q Hq. apply contains_absent. now apply Hb.
    + intros [before [after [Hk [Hp Hb]]]]. exists before, after.
      repeat split; [assumption | now apply contains_occurs |].
      intros q Hq. apply contains_absent. now apply Hb.
  - rewrite find_nothing. split; intros H q Hq; apply contains_absent; auto.
Qed.

Lemma file_tags_differ (a b : string) :
  ("File 1: " ++ a)%string <> ("File 2: " ++ b)%string.
Proof. simpl. congruence. Qed.

(** C5: [validate_file_mappings] rejects with [UnmappedFile] when either
    name matches no catalog entry, and the list it carries names File 1
    exactly when the first name failed and File 2 exactly when the second
    did; it rejects with [PatternMismatch] when both match different
    entries; otherwise it returns the shared entry. *)
Theorem validate_file_mappings_cases (file1_name file2_name : string) :
  let pattern1 := match_filename_to_mapping self file1_name in
  let pattern2 := match_filename_to_mapping self file2_name in
  let tag1 := ("File 1: " ++ Pathlib.name file1_name)%string in
  let tag2 := ("File 2: " ++ Pathlib.name file2_name)%string in
  (pattern1 = None \/ pattern2 = None ->
   exists missing_files,
     validate_file_mappings self file1_name file2_name
     = Rejected (UnmappedFile missing_files) /\
     (In tag1 missing_files <-> pattern1 = None) /\
     (In tag2 missing_files <-> pattern2 = None) /\
     (forall x, In x missing_files -> x = tag1 \/ x = tag2)) /\
  (forall p1 p2, pattern1 = Some p1 -> pattern2 = Some p2 -> p1 <> p2 ->
     validate_file_mappings self file1_name file2_name
     = Rejected (PatternMismatch p1 p2)) /\
  (forall p, pattern1 = Some p -> pattern2 = Some p ->
     validate_file_mappings self file1_name file2_name = Validated p).
Proof.
  intros pattern1 pattern2 tag1 tag2. unfold validate_file_mappings.
  fold pattern1 pattern2.
  pose proof (file_tags_differ (Pathlib.name file1_name) (Pathlib.name file2_name)) as Hne.
  fold tag1 tag2 in Hne. clearbody pattern1 pattern2.
  repeat split.
  - intros Hnone.
    exists (missing_files_of pattern1 pattern2 file1_name file2_name). split.
    + destruct pattern1, pattern2; try reflexivity.
      destruct Hnone; discriminate.
    + unfold missing_files_of.
      fold tag1 tag2. clearbody tag1 tag2.
      destruct pattern1, pattern2; simpl; intuition (congruence || discriminate).
  - intros p1 p2 -> -> Hp. destruct (String.eqb_spec p1 p2); [contradiction | reflexivity].
  - intros p -> ->. now rewrite String.eqb_refl.
Qed.

End Matcher.

(** ** Index labels *)

Section Labels.

Lemma scalar_eqb_eq (x y : scalar) : scalar_eqb x y = true <-> x = y.
Proof.
  destruct x, y; simpl; try (split; [discriminate | congruence]);
    try (split; reflexivity).
  - rewrite FloatAxioms.Leibniz.eqb_spec. split; congruence.
  - rewrite Z.eqb_eq. split; congruence.
  - rewrite String.eqb_eq. split; congruence.
  - rewrite Z.eqb_eq. split; congruence.
Qed.

Lemma scalar_eqb_refl (x : scalar) : scalar_eqb x x = true.
Proof. now apply scalar_eqb_eq. Qed.

Lemma label_in_In (d : scalar) (labels : list scalar) :
  label_in d labels = true <-> In d labels.
Proof.
  unfold label_in. rewrite existsb_exists. split.
  - intros [x [Hx Heq]]. apply scalar_eqb_eq in Heq. now subst.
  - intros H. exists d. split; [assumption | apply scalar_eqb_refl].
Qed.

Lemma label_in_absent (d : scalar) (labels : list scalar) :
  label_in d labels = false <-> ~ In d labels.
Proof.
  rewrite <- label_in_In. destruct (label_in d labels); split; congruence.
Qed.

Lemma unique_In (d : scalar) (labels : list scalar) :
  In d (unique labels) <-> In d labels.
Proof.
  induction labels as [|x rest IH]; simpl; [reflexivity|].
  rewrite filter_In, IH, negb_true_iff. split.
  - intros [H | [H _]]; auto.
  - intros [H | H]; [now left|].
    destruct (scalar_eqb x d) eqn:E.
    + left. now apply scalar_eqb_eq.
    + right. now split.
Qed.

(** Each label occurs once in [unique labels]. *)
Lemma unique_NoDup (labels : list scalar) : NoDup (unique labels).
Proof.
  induction labels as [|x rest IH]; simpl; constructor.
  - rewrite filter_In, negb_true_iff. intros [_ H].
    now rewrite scalar_eqb_refl in H.
  - now apply NoDup_filter.
Qed.

Lemma intersection_In (a b : list scalar) (d : scalar) :
  In d (index_intersection a b) <-> In d a /\ In d b.
Proof.
  unfold index_intersection. now rewrite unique_In, filter_In, label_in_In.
Qed.

Lemma difference_In (b a : list scalar) (d : scalar) :
  In d (index_difference b a) <-> In d b /\ ~ In d a.
Proof.
  unfold index_difference.
  now rewrite unique_In, filter_In, negb_true_iff, label_in_absent.
Qed.

Lemma length_zero_nil {A} (l : list A) : (length l =? 0)%nat = true <-> l = [].
Proof. destruct l; simpl; split; congruence. Qed.

End Labels.

Section Engine.

Context {rt : PyRuntime}.
Variable self : StreamlitExcelComparator.

(** Which failure [reconcile] reports, stage by stage. *)
Lemma reconcile_failure (mapping_pattern filter_value : string)
    (df1 df2 : DataFrame) (f : failure) :
  reconcile self mapping_pattern filter_value df1 df2 = Failed f ->
  let common := index_intersection (index df1) (index df2) in
  (f = NoCommonDates /\ common = []) \/
  (f = NoColumnsMatched /\ common <> [] /\
   get_column_mapping self mapping_pattern (columns df1) (columns df2) = []) \/
  (exists e, f = ErrorDuringComparison e /\ common <> []).
Proof.
  intros H common. unfold reconcile in H. fold common in H.
  destruct (length common =? 0)%nat eqn:Hlen.
  - left. apply length_zero_nil in Hlen. split; congruence.
  - assert (common <> []) as Hne.
    { intros E. rewrite E in Hlen. discriminate. }
    right. change (columns (loc df1 common)) with (columns df1) in H.
    change (columns (loc df2 common)) with (columns df2) in H.
    destruct (get_column_mapping self mapping_pattern (columns df1) (columns df2))
      as [|entry column_map] eqn:Hmap.
    + left. repeat split; congruence.
    + right.
      destruct (compare_columns self (loc df1 common) (loc df2 common)
                  (entry :: column_map) common) as [st|e]; [discriminate|].
      exists e. split; congruence.
Qed.

(** C3: [common_dates] holds exactly the labels present in both indexes and
    [new_dates] exactly those of the second index absent from the first, so
    a label of the second index is in one of the two and not in the other;
    [reconcile] fails with [NoCommonDates] exactly when the intersection is
    empty, and otherwise hands both sets on in its outcome. *)
Theorem common_new_dates_partition (mapping_pattern filter_value : string)
    (df1 df2 : DataFrame) :
  let a := index df1 in
  let b := index df2 in
  let common := index_intersection a b in
  let new := index_difference b a in
  (forall d, In d common <-> In d a /\ In d b) /\
  (forall d, In d new <-> In d b /\ ~ In d a) /\
  (forall d, In d b ->
     (In d common /\ ~ In d new) \/ (In d new /\ ~ In d common)) /\
  (reconcile self mapping_pattern filter_value df1 df2 = Failed NoCommonDates
   <-> common = []) /\
  (forall o, reconcile self mapping_pattern filter_value df1 df2 = Compared o ->
     common_dates o = common /\ new_dates o = new).
Proof.
  intros a b common new.
  split; [|split; [|split; [|split]]].
  - intros d. apply intersection_In.
  - intros d. apply difference_In.
  - intros d Hb. destruct (label_in d a) eqn:Ha.
    + apply label_in_In in Ha. left. split.
      * now apply intersection_In.
      * intros Hn. apply difference_In in Hn. tauto.
    + apply label_in_absent in Ha. right. split.
      * now apply difference_In.
      * intros Hc. apply intersection_In in Hc. tauto.
  - split.
    + intros H. apply reconcile_failure in H.
      destruct H as [[_ H] | [[H _] | [e [H _]]]]; [exact H | discriminate..].
    + intros H. unfold reconcile. fold a b common. now rewrite H.
  - intros o H. unfold reconcile in H. fold a b common new in H.
    destruct (length common =? 0)%nat; [discriminate|].
    destruct (get_column_mapping _ _ _ _); [discriminate|].
    destruct (compare_columns _ _ _ _ _); [|discriminate].
    now injection H as <-.
Qed.

End Engine.

(** ** Row filter *)

Section RowFilter.

Context {rt : PyRuntime}.
Variable self : StreamlitExcelComparator.

Lemma col_pos_has (name : string) (cols : list string) :
  existsb (String.eqb name) cols = true <-> exists j, col_pos name cols = Some j.
Proof.
  induction cols as [|c cols IH]; simpl.
  - split; [discriminate | intros [j H]; discriminate].
  - rewrite (String.eqb_sym name c). destruct (c =? name)%string; simpl.
    + split; [intros _; now exists 0%nat | reflexivity].
    + rewrite IH. split; intros [j H].
      * exists (S j). now rewrite H.
      * destruct (col_pos name cols) as [k|]; [now exists k | discriminate].
Qed.

Lemma col_pos_lacks (name : string) (cols : list string) :
  existsb (String.eqb name) cols = false <-> col_pos name cols = None.
Proof.
  pose proof (col_pos_has name cols) as H.
  destruct (existsb (String.eqb name) cols), (col_pos name cols) as [j|].
  - split; discriminate.
  - destruct H as [H _]. destruct (H eq_refl); discriminate.
  - destruct H as [_ H]. discriminate H. now exists j.
  - split; reflexivity.
Qed.

Lemma equals_str_eq (v : scalar) (s : string) :
  equals_str v s = true <-> v = PyStr s.
Proof.
  destruct v; simpl; try (split; [discriminate | congruence]).
  rewrite String.eqb_eq. split; congruence.
Qed.

(** C8: without a [ProdHier] column the frame comes back unchanged; with
    one, the result keeps the header and exactly the rows, in order, whose
    [ProdHier] cell is the filter string itself (string
    equality, so upper and lower case differ).  The filter always returns
    a frame; when that frame is empty, [compare_files] fails with
    [EmptyAfterFilter]. *)
Theorem filter_by_category_rows (df : DataFrame) (filter_value : string) :
  (has_column df "ProdHier" = false ->
   filter_extract_by_prodhier df filter_value = df) /\
  (has_column df "ProdHier" = true ->
   exists j,
     col_pos "ProdHier" (columns df) = Some j /\
     header (filter_extract_by_prodhier df filter_value) = header df /\
     rows (filter_extract_by_prodhier df filter_value)
     = filter (fun r => equals_str (cell j r) filter_value) (rows df) /\
     forall r, In r (rows (filter_extract_by_prodhier df filter_value))
               <-> In r (rows df) /\ cell j r = PyStr filter_value) /\
  (forall unify_name extract_name df1 mapping_pattern m,
     validate_file_mappings self unify_name extract_name = Validated mapping_pattern ->
     dict_get (mappings self) mapping_pattern = Some m ->
     empty (filter_extract_by_prodhier df ((prod_hier_filter m))) = true ->
     compare_files self unify_name extract_name df1 df
     = Failed (EmptyAfterFilter ((prod_hier_filter m)))).
Proof.
  unfold has_column, filter_extract_by_prodhier.
  split; [|split].
  - intros H. apply col_pos_lacks in H. now rewrite H.
  - intros H. apply col_pos_has in H. destruct H as [j Hj]. exists j.
    rewrite Hj. simpl.
    split; [reflexivity | split; [reflexivity | split; [reflexivity|]]].
    intros r. now rewrite filter_In, equals_str_eq.
  - intros unify_name extract_name df1 mapping_pattern m Hv Hm Hempty.
    unfold compare_files. rewrite Hv, Hm.
    unfold filter_extract_by_prodhier. now rewrite Hempty.
Qed.

End RowFilter.

(** ** Column aligner *)

Section Aligner.

Context {rt : PyRuntime}.
Variable self : StreamlitExcelComparator.

Lemma column_matches_ci (target_col col : string) :
  column_matches target_col col = true <-> matches_ci target_col col.
Proof.
  unfold column_matches, matches_ci.
  now rewrite !orb_true_iff, String.eqb_eq, !contains_occurs, or_assoc.
Qed.

Lemma column_matches_not (target_col col : string) :
  column_matches target_col col = false <-> ~ matches_ci target_col col.
Proof.
  rewrite <- column_matches_ci.
  destruct (column_matches target_col col); split; congruence.
Qed.

Lemma first_match_first (target_col : string) (cols : list string) (c : string) :
  first_match target_col cols = Some c <->
  exists before after,
    cols = before ++ c :: after /\ matches_ci target_col c /\
    forall q, In q before -> ~ matches_ci target_col q.
Proof.
  unfold first_match. rewrite find_first.
  split; intros [before [after [Hc [Hm Hb]]]]; exists before, after;
    (split; [assumption | split; [now apply column_matches_ci |]]);
    intros q Hq; apply column_matches_not; auto.
Qed.

Lemma first_match_none (target_col : string) (cols : list string) :
  first_match target_col cols = None <->
  forall q, In q cols -> ~ matches_ci target_col q.
Proof.
  unfold first_match. rewrite find_nothing.
  split; intros H q Hq; apply column_matches_not; auto.
Qed.

(** A round of the loop either leaves the map as it is or stores the pair
    of first matches, and it can only do the latter with both found. *)
Lemma align_target_cases (df1_cols df2_cols : list string)
    (column_map : dict string) (target_col : string) :
  align_target df1_cols df2_cols column_map target_col = column_map \/
  exists c1 c2,
    first_match target_col df1_cols = Some c1 /\
    first_match target_col df2_cols = Some c2 /\
    align_target df1_cols df2_cols column_map target_col = dict_set column_map c1 c2.
Proof.
  unfold align_target.
  destruct (first_match target_col df1_cols) as [c1|];
    destruct (first_match target_col df2_cols) as [c2|]; auto.
  destruct (found (Some c1) && found (Some c2)); auto.
  right. now exists c1, c2.
Qed.

Lemma dict_set_In {V} (d : dict V) (k : string) (v : V) (e : string * V) :
  In e (dict_set d k v) -> e = (k, v) \/ In e d.
Proof.
  induction d as [|[k' v'] d IH]; simpl.
  - intros [<-|[]]. now left.
  - destruct (String.eqb_spec k' k) as [->|Hk]; simpl.
    + intros [<-|H]; auto.
    + intros [<-|H]; auto. destruct (IH H); auto.
Qed.

Lemma align_all_origin (df1_cols df2_cols targets : list string)
    (column_map : dict string) (P : string * string -> Prop) :
  (forall e, In e column_map -> P e) ->
  (forall t c1 c2, In t targets ->
     first_match t df1_cols = Some c1 -> first_match t df2_cols = Some c2 ->
     P (c1, c2)) ->
  forall e, In e (fold_left (align_target df1_cols df2_cols) targets column_map) -> P e.
Proof.
  revert column_map.
  induction targets as [|t targets IH]; intros column_map Hmap Hstep; simpl.
  - exact Hmap.
  - apply IH.
    + intros e He.
      destruct (align_target_cases df1_cols df2_cols column_map t)
        as [Heq | [c1 [c2 [H1 [H2 Heq]]]]]; rewrite Heq in He.
      * now apply Hmap.
      * apply dict_set_In in He. destruct He as [-> | He].
        -- apply (Hstep t); [now left | assumption..].
        -- now apply Hmap.
    + intros t' c1 c2 Ht'. apply Hstep. now right.
Qed.

End Aligner.

(** ** Date resolver *)

Section Dates.

Context {rt : PyRuntime}.
Variable self : StreamlitExcelComparator.

Lemma mapM_length {A B} (f : A -> result B) (l : list A) (ys : list B) :
  mapM f l = Ok ys -> length ys = length l.
Proof.
  revert ys; induction l as [|x l IH]; intros ys; simpl.
  - now intros [= <-].
  - destruct (f x) as [y|e]; simpl; [|discriminate].
    destruct (mapM f l) as [ys'|e]; simpl; [|discriminate].
    intros [= <-]. simpl. now rewrite (IH ys').
Qed.



Lemma column_values_length (df : DataFrame) (j : nat) :
  length (column_values df j) = length (rows df).
Proof. unfold column_values. apply length_map. Qed.

Lemma set_column_rows (df : DataFrame) (name : string) (dt : Dtype)
    (values : list scalar) :
  length values = length (rows df) ->
  length (rows (set_column df name dt values)) = length (rows df).
Proof.
  intros H. unfold set_column.
  destruct (col_pos name (columns df)); simpl;
    rewrite length_map, length_combine, H; apply Nat.min_id.
Qed.

Lemma mentions_week_ending_occurs (v : scalar) :
  mentions_week_ending v = true <->
  exists s, v = PyStr s /\ PyStr.occurs_in "Week ending" s.
Proof.
  destruct v; simpl;
    try (split; [discriminate | intros [s0 [H _]]; discriminate]).
  rewrite contains_occurs. split.
  - intros H. now exists s.
  - now intros [s0 [[= <-] H]].
Qed.

(** C10: the branch of [parse_dates] is settled by the column's dtype and
    its first value alone: on a non-empty column the day-first extraction
    runs over the whole column exactly when the dtype is object and the
    first value contains ["Week ending"], and the generic parse runs
    otherwise, whatever the later values are. *)
Theorem week_ending_branch_by_first_row :
  (forall dt first rest,
      parsed_dates dt (first :: rest) =
      if is_object dt && mentions_week_ending first
      then to_datetime true (map str_extract (first :: rest))
      else to_datetime false (first :: rest)) /\
  (forall dt first rest rest',
      week_ending_test dt (first :: rest) = week_ending_test dt (first :: rest')) /\
  (forall v,
      mentions_week_ending v = true <->
      exists s, v = PyStr s /\ PyStr.occurs_in "Week ending" s) /\
  (forall df col_name j first rest,
      col_pos col_name (columns df) = Some j ->
      column_values df j = first :: rest ->
      parse_dates df col_name =
      match (if is_object (column_dtype df j) && mentions_week_ending first
             then to_datetime true (map str_extract (first :: rest))
             else to_datetime false (first :: rest)) with
      | Ok dates => set_column df "Date" datetime64 dates
      | Raise _ => df
      end).
Proof.
  assert (forall dt first rest,
      parsed_dates dt (first :: rest) =
      if is_object dt && mentions_week_ending first
      then to_datetime true (map str_extract (first :: rest))
      else to_datetime false (first :: rest)) as Hbranch.
  { intros dt first rest. unfold parsed_dates, week_ending_test.
    destruct (is_object dt); [|reflexivity]. simpl.
    now destruct (mentions_week_ending first). }
  split; [exact Hbranch | split; [|split]].
  - intros dt first rest rest'. unfold week_ending_test.
    now destruct (is_object dt).
  - apply mentions_week_ending_occurs.
  - intros df col_name j first rest Hj Hcol. unfold parse_dates.
    now rewrite Hj, Hcol, Hbranch.
Qed.


End Dates.

(** ** Cell comparison *)

Section FloatFacts.

Lemma ltb_irrefl (x : float) : (x <? x)%float = false.
Proof.
  rewrite ltb_spec. unfold SFltb.
  destruct (Prim2SF x) as [s|s| |s m e]; simpl; try reflexivity.
  - now destruct s.
  - destruct s; now rewrite Z.compare_refl, Pos.compare_cont_refl.
Qed.

Lemma ltb_differs (x y : float) : (x <? y)%float = true -> y <> x.
Proof. intros H ->. rewrite ltb_irrefl in H. discriminate. Qed.

Lemma Prim2SF_nan : Prim2SF nan = S754_nan.
Proof. reflexivity. Qed.

Lemma ltb_nan (x : float) : (x <? nan)%float = false.
Proof.
  rewrite ltb_spec, Prim2SF_nan. unfold SFltb.
  now destruct (Prim2SF x).
Qed.

Lemma abs_sub_nan_l (y : float) : abs (nan - y) = nan.
Proof.
  apply Prim2SF_inj. now rewrite abs_spec, sub_spec, Prim2SF_nan.
Qed.

Lemma abs_sub_nan_r (x : float) : abs (x - nan) = nan.
Proof.
  apply Prim2SF_inj. rewrite abs_spec, sub_spec, Prim2SF_nan.
  now destruct (Prim2SF x).
Qed.

End FloatFacts.

Section Comparison.

Context {rt : PyRuntime}.
Variable self : StreamlitExcelComparator.

Lemma float_of_zero : float_of_int 0 = Ok 0%float.
Proof. reflexivity. Qed.

(** [float(v or 0)] on a float that is no [nan]: the float itself, up to
    the sign of zero. *)
Lemma py_float_or_zero (v : float) :
  exists v', py_float (or_zero (PyFloat v)) = Ok v' /\
             (v' = v \/ ((v =? 0)%float = true /\ v' = 0%float)).
Proof.
  unfold or_zero, truthy. destruct (v =? 0)%float eqn:E; simpl.
  - exists 0%float. split; [exact float_of_zero | now right].
  - exists v. split; [reflexivity | now left].
Qed.

(** With [nan] as the missing side, whichever side it is, the difference
    is [nan] and the pair is never above the threshold. *)
Lemma nan_side_difference (v : float) :
  is_nan v = false ->
  compare_values self (PyFloat nan) (PyFloat v) = Ok (Some true, nan) /\
  compare_values self (PyFloat v) (PyFloat nan) = Ok (Some true, nan) /\
  significant self (Some true) nan = false.
Proof.
  intros Hv. unfold compare_values.
  change (isna (PyFloat nan)) with true.
  change (isna (PyFloat v)) with (is_nan v). rewrite Hv. simpl andb. simpl orb.
  cbv iota.
  change (or_zero (PyFloat nan)) with (PyFloat nan).
  destruct (py_float_or_zero v) as [v' [-> _]].
  change (py_float (PyFloat nan)) with (@Ok float nan). simpl.
  rewrite abs_sub_nan_l, abs_sub_nan_r.
  repeat split. unfold significant. now rewrite ltb_nan.
Qed.

(** With [None] as the missing side the zero does come in: the difference
    is the magnitude of the present value. *)
Lemma none_side_difference (v : float) :
  is_nan v = false ->
  exists v',
    compare_values self PyNone (PyFloat v) = Ok (Some true, abs (0 - v')) /\
    compare_values self (PyFloat v) PyNone = Ok (Some true, abs (v' - 0)) /\
    (v' = v \/ ((v =? 0)%float = true /\ v' = 0%float)).
Proof.
  intros Hv. destruct (py_float_or_zero v) as [v' [Hv' Hcase]].
  exists v'. unfold compare_values.
  change (isna PyNone) with true.
  change (isna (PyFloat v)) with (is_nan v). rewrite Hv. simpl andb. simpl orb.
  cbv iota.
  change (or_zero PyNone) with (PyInt 0).
  change (py_float (PyInt 0)) with (float_of_int 0).
  rewrite float_of_zero, Hv'. simpl. auto.
Qed.

(** C2, at the input where the code departs from it: with the missing
    value [nan], as pandas reads an empty cell, and the present value
    [5.0], [compare_values] judges the pair different but returns [nan] as
    the difference, not [abs(5.0 - 0) = 5.0], because [nan or 0] is [nan];
    the pair then fails the threshold test.  With [None] as the missing
    value the difference is [5.0]. *)
Theorem nan_missing_value_not_coerced :
  compare_values default_comparator (PyFloat nan) (PyFloat 5)
  = Ok (Some true, nan) /\
  compare_values default_comparator (PyFloat 5) (PyFloat nan)
  = Ok (Some true, nan) /\
  isna (PyFloat nan) = true /\ isna (PyFloat 5) = false /\
  abs (5 - 0) = 5%float /\
  (nan =? 5)%float = false /\
  significant default_comparator (Some true) nan = false /\
  compare_values default_comparator PyNone (PyFloat 5) = Ok (Some true, 5%float).
Proof.
  destruct (nan_side_difference 5 eq_refl) as [H1 [H2 _]].
  split; [exact H1 | split; [exact H2 |]].
  repeat split.
Qed.

End Comparison.

(** ** Comparison loop *)

Section Loop.

Context {rt : PyRuntime}.
Variable self : StreamlitExcelComparator.
Variables df1_aligned df2_aligned : DataFrame.

Lemma significant_at_threshold (is_different : option bool) :
  significant self is_different (threshold self) = false.
Proof. unfold significant. now rewrite ltb_irrefl, andb_false_r. Qed.

(** The inner loop's body from the two values on: the row is appended and
    the counter incremented when the test passes, and nothing but the
    total changes when it does not. *)
Lemma record_comparison_cases (col1 col2 : string) (d val1 val2 : scalar)
    (st st' : LoopState) :
  record_comparison self col1 col2 d val1 val2 st = Ok st' ->
  exists is_different diff,
    compare_values self val1 val2 = Ok (is_different, diff) /\
    total_comparisons st' = S (total_comparisons st) /\
    ((significant self is_different diff = true /\
      exists day,
        strftime d = Ok day /\
        mismatch_rows st' =
        mismatch_rows st ++
        [ {| date := day;
             column_file_1 := col1; value_file_1 := val1;
             column_file_2 := col2; value_file_2 := val2;
             difference := diff; above_threshold := true |} ] /\
        significant_differences st' = S (significant_differences st)) \/
     (significant self is_different diff = false /\
      mismatch_rows st' = mismatch_rows st /\
      significant_differences st' = significant_differences st)).
Proof.
  unfold record_comparison.
  destruct (compare_values self val1 val2) as [[is_different diff]|e];
    simpl; [|discriminate].
  intros H. exists is_different, diff. split; [reflexivity|].
  destruct (significant self is_different diff) eqn:Hsig.
  - destruct (strftime d) as [day|e]; simpl in H; [|discriminate].
    injection H as <-. simpl. split; [reflexivity|].
    left. split; [reflexivity|]. now exists day.
  - injection H as <-. simpl. split; [reflexivity|]. now right.
Qed.

Lemma significant_split (is_different : option bool) (diff : float) :
  significant self is_different diff = true <->
  is_true is_different = true /\ (threshold self <? diff)%float = true.
Proof. unfold significant. apply andb_true_iff. Qed.

Lemma compare_cell_step (cols : string * string) (d : scalar)
    (st st' : LoopState) :
  compare_cell self df1_aligned df2_aligned cols st d = Ok st' ->
  total_comparisons st' = S (total_comparisons st) /\
  exists added,
    mismatch_rows st' = mismatch_rows st ++ added /\
    significant_differences st' = significant_differences st + length added /\
    forall r, In r added <-> flagged self df1_aligned df2_aligned cols d r.
Proof.
  unfold compare_cell.
  destruct (at_ df1_aligned d (fst cols)) as [val1|e] eqn:H1; simpl; [|discriminate].
  destruct (at_ df2_aligned d (snd cols)) as [val2|e] eqn:H2; simpl; [|discriminate].
  intros H. apply record_comparison_cases in H.
  destruct H as [is_different [diff [Hcmp [Htotal Hcase]]]].
  split; [exact Htotal|].
  destruct Hcase as [[Hsig [day [Hday [Hrows Hcount]]]] | [Hsig [Hrows Hcount]]].
  - eexists. split; [exact Hrows | split; [simpl; lia |]].
    apply significant_split in Hsig. destruct Hsig as [Ht Hlt].
    intros r. split.
    + intros [<- | []]. exists val1, val2, is_different, diff, day.
      repeat split; assumption.
    + intros [v1 [v2 [i [x [y [G1 [G2 [G3 [_ [_ [G6 ->]]]]]]]]]]].
      rewrite H1 in G1. injection G1 as <-.
      rewrite H2 in G2. injection G2 as <-.
      rewrite Hcmp in G3. injection G3 as <- <-.
      rewrite Hday in G6. injection G6 as <-. now left.
  - exists []. split; [now rewrite app_nil_r | split; [simpl; lia |]].
    intros r. split; [intros [] |].
    intros [v1 [v2 [i [x [y [G1 [G2 [G3 [G4 [G5 _]]]]]]]]]].
    rewrite H1 in G1. injection G1 as <-.
    rewrite H2 in G2. injection G2 as <-.
    rewrite Hcmp in G3. injection G3 as <- <-.
    assert (significant self is_different diff = true) as Habs
      by now apply significant_split.
    congruence.
Qed.

Lemma compare_dates_steps (cols : string * string) (dates : list scalar)
    (st st' : LoopState) :
  foldM (compare_cell self df1_aligned df2_aligned cols) dates st = Ok st' ->
  total_comparisons st' = total_comparisons st + length dates /\
  exists added,
    mismatch_rows st' = mismatch_rows st ++ added /\
    significant_differences st' = significant_differences st + length added /\
    forall r, In r added <->
              exists d, In d dates /\ flagged self df1_aligned df2_aligned cols d r.
Proof.
  revert st; induction dates as [|d dates IH]; intros st; simpl.
  - intros [= <-]. split; [lia|]. exists []. rewrite app_nil_r.
    split; [reflexivity | split; [simpl; lia |]].
    intros r. split; [intros [] | intros [d [[] _]]].
  - destruct (compare_cell self df1_aligned df2_aligned cols st d)
      as [st1|e] eqn:Hstep; simpl; [|discriminate].
    intros Hrest. apply compare_cell_step in Hstep.
    destruct Hstep as [Ht1 [add1 [Hr1 [Hs1 Hin1]]]].
    apply IH in Hrest. destruct Hrest as [Ht2 [add2 [Hr2 [Hs2 Hin2]]]].
    split; [lia|]. exists (add1 ++ add2).
    split; [now rewrite Hr2, Hr1, app_assoc|].
    split; [rewrite length_app; lia|].
    intros r. rewrite in_app_iff, Hin1, Hin2. split.
    + intros [H | [d' [Hd' H]]]; [exists d | exists d']; auto.
    + intros [d' [[<- | Hd'] H]]; [now left | right; now exists d'].
Qed.

Lemma compare_columns_steps (column_map : dict string) (dates : list scalar)
    (st st' : LoopState) :
  foldM (fun st cols => foldM (compare_cell self df1_aligned df2_aligned cols) dates st)
        column_map st = Ok st' ->
  total_comparisons st' = total_comparisons st + length column_map * length dates /\
  exists added,
    mismatch_rows st' = mismatch_rows st ++ added /\
    significant_differences st' = significant_differences st + length added /\
    forall r, In r added <->
              exists cols d, In cols column_map /\ In d dates /\
                             flagged self df1_aligned df2_aligned cols d r.
Proof.
  revert st; induction column_map as [|cols column_map IH]; intros st; simpl.
  - intros [= <-]. split; [lia|]. exists []. rewrite app_nil_r.
    split; [reflexivity | split; [simpl; lia |]].
    intros r. split; [intros [] | intros [c [d [[] _]]]].
  - destruct (foldM (compare_cell self df1_aligned df2_aligned cols) dates st)
      as [st1|e] eqn:Hstep; simpl; [|discriminate].
    intros Hrest. apply compare_dates_steps in Hstep.
    destruct Hstep as [Ht1 [add1 [Hr1 [Hs1 Hin1]]]].
    apply IH in Hrest. destruct Hrest as [Ht2 [add2 [Hr2 [Hs2 Hin2]]]].
    split; [lia|]. exists (add1 ++ add2).
    split; [now rewrite Hr2, Hr1, app_assoc|].
    split; [rewrite length_app; lia|].
    intros r. rewrite in_app_iff, Hin1, Hin2. split.
    + intros [[d [Hd H]] | [c [d [Hc [Hd H]]]]];
        [exists cols, d | exists c, d]; auto.
    + intros [c [d [[<- | Hc] [Hd H]]]];
        [left; now exists d | right; now exists c, d].
Qed.

Lemma foldM_completes {A S} (f : S -> A -> result S) (l : list A) :
  (forall s x, In x l -> exists s', f s x = Ok s') ->
  forall s, exists s', foldM f l s = Ok s'.
Proof.
  induction l as [|x l IH]; intros Hf s; simpl.
  - now exists s.
  - destruct (Hf s x (or_introl eq_refl)) as [s1 ->]. simpl.
    apply IH. intros s0 y Hy. apply Hf. now right.
Qed.

(** The loop runs to its end when every lookup yields a value, every pair of
    values can be compared and every common date is a timestamp. *)
Lemma compare_columns_completes (column_map : dict string) (common : list scalar) :
  (forall cols d, In cols column_map -> In d common ->
     (exists t, d = Timestamp t) /\
     exists val1 val2 cmp,
       at_ df1_aligned d (fst cols) = Ok val1 /\
       at_ df2_aligned d (snd cols) = Ok val2 /\
       compare_values self val1 val2 = Ok cmp) ->
  exists st, compare_columns self df1_aligned df2_aligned column_map common = Ok st.
Proof.
  intros H. unfold compare_columns. apply foldM_completes.
  intros s cols Hcols. apply foldM_completes.
  intros s0 d Hd. destruct (H cols d Hcols Hd) as [[t ->] [v1 [v2 [cmp [H1 [H2 Hc]]]]]].
  unfold compare_cell, record_comparison. rewrite H1, H2. simpl. rewrite Hc. simpl.
  destruct (significant self (fst cmp) (snd cmp)); simpl; eexists; reflexivity.
Qed.

(** C1: when the comparison loop completes, its mismatch list holds a row
    exactly for the column pairs and common dates whose two values were
    judged different with a difference strictly above the threshold, and
    [significant_differences] counts those rows; every pair and date counts
    once in [total_comparisons].  A difference equal to the threshold never
    passes the test, so no row of the list has it, and the threshold of a
    default comparator is 0.01. *)
Theorem mismatch_recorded_iff_significant (column_map : dict string)
    (common : list scalar) (st : LoopState) :
  compare_columns self df1_aligned df2_aligned column_map common = Ok st ->
  (forall r, In r (mismatch_rows st) <->
             exists cols d, In cols column_map /\ In d common /\
                            flagged self df1_aligned df2_aligned cols d r) /\
  significant_differences st = length (mismatch_rows st) /\
  total_comparisons st = length column_map * length common /\
  (forall r, In r (mismatch_rows st) ->
             (threshold self <? difference r)%float = true /\
             difference r <> threshold self /\
             above_threshold r = true) /\
  (forall is_different, significant self is_different (threshold self) = false) /\
  threshold default_comparator = 0.01%float.
Proof.
  unfold compare_columns. intros H. apply compare_columns_steps in H.
  simpl in H. destruct H as [Htotal [added [Hrows [Hcount Hin]]]].
  rewrite Hrows.
  split; [exact Hin | split; [exact Hcount | split; [exact Htotal |]]].
  split; [|split; [exact significant_at_threshold | reflexivity]].
  intros r Hr. apply Hin in Hr.
  destruct Hr as [cols [d [_ [_ [v1 [v2 [i [x [y [_ [_ [_ [_ [Hlt [_ ->]]]]]]]]]]]]]]].
  simpl. split; [exact Hlt | split; [now apply ltb_differs | reflexivity]].
Qed.

End Loop.

(** ** The theorems at concrete inputs *)

Section Examples.

Local Existing Instance Sample.runtime.

(** The loop on one column pair and one common date, 50 against 50.02:
    one row, one significant difference, one comparison. *)
Lemma mismatch_recorded_witness :
  exists st,
    compare_columns default_comparator Sample.unify_aligned Sample.extract_aligned
      [("Hypermarkets (7011)", "HYPERMARKETS (7011)")] [Timestamp 19730] = Ok st /\
    significant_differences st = length (mismatch_rows st) /\
    total_comparisons st = 1%nat /\
    forall r, In r (mismatch_rows st) -> difference r <> threshold default_comparator.
Proof.
  eexists. split; [vm_compute; reflexivity|].
  pose proof (mismatch_recorded_iff_significant default_comparator
                Sample.unify_aligned Sample.extract_aligned
                [("Hypermarkets (7011)", "HYPERMARKETS (7011)")] [Timestamp 19730]
                _ eq_refl) as [_ [Hcount [Htotal [Hrows _]]]].
  split; [exact Hcount | split; [exact Htotal |]].
  intros r Hr. exact (proj1 (proj2 (Hrows r Hr))).
Defined.



(** The scenarios of the specification. *)
Example both_names_resolve_to_aproteici :
  match_filename_to_mapping default_comparator Sample.extract_name = Some "APROTEICI" /\
  match_filename_to_mapping default_comparator Sample.unify_name = Some "APROTEICI" /\
  validate_file_mappings default_comparator Sample.unify_name Sample.extract_name
  = Validated "APROTEICI".
Proof. repeat split. Qed.

Example aproteici_against_salse :
  validate_file_mappings default_comparator "Check_APROTEICI.xlsx" "IT_SALSE_D1.xlsx"
  = Rejected (PatternMismatch "APROTEICI" "SALSE").
Proof. reflexivity. Qed.

Example two_hundredths_is_significant :
  exists diff,
    compare_values default_comparator (PyFloat 100) (PyFloat 100.02)
    = Ok (Some true, diff) /\
    significant default_comparator (Some true) diff = true.
Proof. eexists. split; reflexivity. Qed.

Example five_thousandths_is_not :
  exists diff,
    compare_values default_comparator (PyFloat 100) (PyFloat 100.005)
    = Ok (Some false, diff) /\
    significant default_comparator (Some false) diff = false.
Proof. eexists. split; reflexivity. Qed.

(** Text against text: different, with difference zero, hence never in the
    mismatch list under a non-negative threshold. *)
Example text_cells_never_significant :
  compare_values default_comparator (PyStr "n.a.") (PyStr "-")
  = Ok (Some true, 0%float) /\
  significant default_comparator (Some true) 0 = false.
Proof. split; reflexivity. Qed.

End Examples.

(** * Further properties of the code *)

(** ** File names and the catalog *)

Section CaseOfNames.

Lemma upper_char_slash (c : ascii) :
  Ascii.eqb (PyStr.upper_char c) "/"%char = Ascii.eqb c "/"%char.
Proof.
  destruct c as [[] [] [] [] [] [] [] []]; reflexivity.
Qed.

Lemma upper_char_dot (c : ascii) :
  Ascii.eqb (PyStr.upper_char c) "."%char = Ascii.eqb c "."%char.
Proof.
  destruct c as [[] [] [] [] [] [] [] []]; reflexivity.
Qed.

Lemma upper_char_twice (c : ascii) :
  PyStr.upper_char (PyStr.upper_char c) = PyStr.upper_char c.
Proof.
  destruct c as [[] [] [] [] [] [] [] []]; reflexivity.
Qed.

Lemma upper_twice (s : string) : PyStr.upper (PyStr.upper s) = PyStr.upper s.
Proof.
  induction s as [|c s IH]; simpl; [reflexivity|].
  now rewrite upper_char_twice, IH.
Qed.

Lemma upper_length (s : string) : String.length (PyStr.upper s) = String.length s.
Proof. induction s as [|c s IH]; simpl; [reflexivity | now rewrite IH]. Qed.

Lemma upper_substring (n m : nat) (s : string) :
  substring n m (PyStr.upper s) = PyStr.upper (substring n m s).
Proof.
  revert n m; induction s as [|c s IH]; intros n m; simpl.
  - now destruct n, m.
  - destruct n as [|n]; [destruct m as [|m]|]; simpl; try reflexivity.
    + now rewrite IH.
    + apply IH.
Qed.

Lemma upper_rfind_dot (s : string) :
  PyStr.rfind "."%char (PyStr.upper s) = PyStr.rfind "."%char s.
Proof.
  induction s as [|c s IH]; simpl; [reflexivity|].
  now rewrite IH, upper_char_dot.
Qed.

Lemma upper_split_slash (s : string) :
  PyStr.split "/"%char (PyStr.upper s) = map PyStr.upper (PyStr.split "/"%char s).
Proof.
  induction s as [|c s IH]; simpl; [reflexivity|].
  rewrite upper_char_slash, IH.
  destruct (Ascii.eqb c "/"%char); [reflexivity|].
  now destruct (PyStr.split "/"%char s).
Qed.

Lemma upper_is_empty (s : string) :
  (PyStr.upper s =? EmptyString)%string = (s =? EmptyString)%string.
Proof. now destruct s. Qed.

Lemma upper_is_dot (s : string) :
  (PyStr.upper s =? ".")%string = (s =? ".")%string.
Proof.
  destruct s as [|c s]; [reflexivity|]. simpl.
  change (Ascii.eqb (PyStr.upper_char c) "."%char
          && (PyStr.upper s =? EmptyString)%string
          = Ascii.eqb c "."%char && (s =? EmptyString)%string)%bool.
  now rewrite upper_char_dot, upper_is_empty.
Qed.

Lemma upper_last (l : list string) :
  last (map PyStr.upper l) EmptyString = PyStr.upper (last l EmptyString).
Proof.
  induction l as [|x l IH]; [reflexivity|].
  destruct l as [|y l]; [reflexivity|]. exact IH.
Qed.

Lemma upper_name (path : string) :
  Pathlib.name (PyStr.upper path) = PyStr.upper (Pathlib.name path).
Proof.
  unfold Pathlib.name, Pathlib.parts. rewrite upper_split_slash, <- upper_last.
  f_equal. induction (PyStr.split "/"%char path) as [|p l IH]; simpl; [reflexivity|].
  rewrite upper_is_empty, upper_is_dot, IH.
  now destruct (negb (p =? EmptyString)%string && negb (p =? ".")%string).
Qed.

(** Upper-casing a path and taking its stem commute: the slash and the dot
    are no letters. *)
Lemma upper_stem (path : string) :
  Pathlib.stem (PyStr.upper path) = PyStr.upper (Pathlib.stem path).
Proof.
  unfold Pathlib.stem. rewrite upper_name, upper_rfind_dot, upper_length.
  destruct (PyStr.rfind "."%char (Pathlib.name path)) as [i|]; [|reflexivity].
  destruct ((0 <? i)%nat && (i <? String.length (Pathlib.name path) - 1)%nat);
    [apply upper_substring | reflexivity].
Qed.

End CaseOfNames.

Section MatcherMore.

Variable self : StreamlitExcelComparator.

(** X1: the match ignores the letter case of the file name: two names
    that are equal once upper-cased resolve to the same catalog entry, or
    both to none. *)
Theorem match_ignores_case (file1_name file2_name : string) :
  PyStr.upper file1_name = PyStr.upper file2_name ->
  match_filename_to_mapping self file1_name
  = match_filename_to_mapping self file2_name.
Proof.
  intros H. unfold match_filename_to_mapping.
  now rewrite <- !upper_stem, H.
Qed.

Lemma match_filename_key (filename p : string) :
  match_filename_to_mapping self filename = Some p -> In p (keys (mappings self)).
Proof.
  unfold match_filename_to_mapping. rewrite first_pattern_find.
  intros H. now apply find_some in H.
Qed.

Lemma dict_get_key {V} (d : dict V) (k : string) :
  In k (keys d) -> exists v, dict_get d k = Some v.
Proof.
  induction d as [|[k' v'] d IH]; simpl; [intros []|].
  destruct (String.eqb_spec k' k) as [->|Hne].
  - intros _. now exists v'.
  - intros [H | H]; [contradiction | now apply IH].
Qed.

(** X2: exchanging the two file names keeps an accepted pattern and
    exchanges the two patterns of a mismatch, so the verdict on a pair does
    not depend on which file is given first; an accepted pattern is a key of
    the catalog, whose entry the lookup that follows finds. *)
Theorem validate_file_mappings_swap (file1_name file2_name : string) :
  (forall p,
      validate_file_mappings self file1_name file2_name = Validated p <->
      validate_file_mappings self file2_name file1_name = Validated p) /\
  (forall p1 p2,
      validate_file_mappings self file1_name file2_name
      = Rejected (PatternMismatch p1 p2) <->
      validate_file_mappings self file2_name file1_name
      = Rejected (PatternMismatch p2 p1)) /\
  (forall p,
      validate_file_mappings self file1_name file2_name = Validated p ->
      match_filename_to_mapping self file1_name = Some p /\
      match_filename_to_mapping self file2_name = Some p /\
      exists m, dict_get (mappings self) p = Some m).
Proof.
  unfold validate_file_mappings.
  destruct (match_filename_to_mapping self file1_name) as [a|] eqn:H1;
    destruct (match_filename_to_mapping self file2_name) as [b|] eqn:H2;
    simpl; try (repeat split; intros; discriminate).
  rewrite (String.eqb_sym b a).
  destruct (String.eqb_spec a b) as [->|Hne]; simpl.
  - split; [intros p; split; intros H; exact H|].
    split; [intros p1 p2; split; discriminate|].
    intros p [= <-]. repeat split.
    apply dict_get_key. now apply match_filename_key with file1_name.
  - split; [intros p; split; discriminate|].
    split; [|intros p; discriminate].
    intros p1 p2. split; intros [= <- <-]; reflexivity.
Qed.

End MatcherMore.

Section Messages.

Variable self : StreamlitExcelComparator.

Lemma append_assoc_str (a b c : string) :
  ((a ++ b) ++ c = a ++ (b ++ c))%string.
Proof. induction a as [|x a IH]; simpl; [reflexivity | now rewrite IH]. Qed.

Lemma occurs_in_self (p : string) : PyStr.occurs_in p p.
Proof.
  exists EmptyString, EmptyString. simpl.
  induction p as [|x p IH]; simpl; [reflexivity | now rewrite <- IH].
Qed.

Lemma occurs_in_left (p s t : string) :
  PyStr.occurs_in p s -> PyStr.occurs_in p (s ++ t)%string.
Proof.
  intros [a [b ->]]. exists a, (b ++ t)%string.
  now rewrite !append_assoc_str.
Qed.

Lemma occurs_in_right (p s t : string) :
  PyStr.occurs_in p t -> PyStr.occurs_in p (s ++ t)%string.
Proof.
  intros [a [b ->]]. exists (s ++ a)%string, b.
  now rewrite !append_assoc_str.
Qed.

Lemma join_lists_item (sep : string) (items : list string) (x : string) :
  In x items -> PyStr.occurs_in x (PyStr.join sep items).
Proof.
  induction items as [|y items IH]; [intros []|].
  intros [-> | Hin].
  - destruct items as [|z items]; [apply occurs_in_self|].
    cbn [PyStr.join]. apply occurs_in_left, occurs_in_self.
  - destruct items as [|z items]; [destruct Hin|].
    cbn [PyStr.join]. apply occurs_in_right, occurs_in_right. now apply IH.
Qed.

Lemma enumerate_lists_pattern (i : nat) (patterns : list string) (p : string) :
  In p patterns -> PyStr.occurs_in p (enumerate_patterns i patterns).
Proof.
  revert i; induction patterns as [|q patterns IH]; intros i; [intros []|].
  cbn [enumerate_patterns]. intros [-> | Hin].
  - do 3 apply occurs_in_right. apply occurs_in_left, occurs_in_self.
  - do 5 apply occurs_in_right. now apply IH.
Qed.

(** X3: the message of a rejected pair carries what the user needs: the
    tag and name of each file that matched no entry together with every
    pattern of the catalog, or, for a mismatch, the two patterns found. *)
Theorem rejection_message_content (file1_name file2_name : string) (f : failure) :
  validate_file_mappings self file1_name file2_name = Rejected f ->
  (match_filename_to_mapping self file1_name = None ->
   PyStr.occurs_in ("File 1: " ++ Pathlib.name file1_name)%string (error_msg self f)) /\
  (match_filename_to_mapping self file2_name = None ->
   PyStr.occurs_in ("File 2: " ++ Pathlib.name file2_name)%string (error_msg self f)) /\
  (match_filename_to_mapping self file1_name = None \/
   match_filename_to_mapping self file2_name = None ->
   forall p, In p (keys (mappings self)) -> PyStr.occurs_in p (error_msg self f)) /\
  (forall p1 p2,
      match_filename_to_mapping self file1_name = Some p1 ->
      match_filename_to_mapping self file2_name = Some p2 ->
      PyStr.occurs_in p1 (error_msg self f) /\ PyStr.occurs_in p2 (error_msg self f)).
Proof.
  unfold validate_file_mappings.
  assert (forall missing x, In x missing ->
            PyStr.occurs_in x (error_msg self (UnmappedFile missing))) as Hfile.
  { intros missing x Hx. cbn [error_msg].
    apply occurs_in_right, occurs_in_left. now apply join_lists_item. }
  assert (forall missing p, In p (keys (mappings self)) ->
            PyStr.occurs_in p (error_msg self (UnmappedFile missing))) as Hkeys.
  { intros missing p Hp. cbn [error_msg].
    do 5 apply occurs_in_right. now apply enumerate_lists_pattern. }
  destruct (match_filename_to_mapping self file1_name) as [a|];
    destruct (match_filename_to_mapping self file2_name) as [b|].
  - destruct (negb (a =? b)%string); [|discriminate].
    intros [= <-]. split; [discriminate | split; [discriminate|]].
    split; [intros [H | H]; discriminate|].
    intros p1 p2 [= <-] [= <-]. cbn [error_msg]. split.
    + do 3 apply occurs_in_right. apply occurs_in_left, occurs_in_self.
    + do 6 apply occurs_in_right. apply occurs_in_left, occurs_in_self.
  - intros [= <-]. split; [discriminate|].
    split; [intros _; apply Hfile; simpl; auto|].
    split; [intros _ p Hp; now apply Hkeys | discriminate].
  - intros [= <-]. split; [intros _; apply Hfile; simpl; auto|].
    split; [discriminate|].
    split; [intros _ p Hp; now apply Hkeys | discriminate].
  - intros [= <-]. split; [intros _; apply Hfile; simpl; auto|].
    split; [intros _; apply Hfile; simpl; auto|].
    split; [intros _ p Hp; now apply Hkeys | discriminate].
Qed.

End Messages.

(** ** Date column, row filter and date parsing *)

Section FramesMore.

Context {rt : PyRuntime}.
Variable self : StreamlitExcelComparator.

Lemma has_column_In (df : DataFrame) (name : string) :
  has_column df name = true <-> In name (columns df).
Proof.
  unfold has_column. rewrite existsb_exists. split.
  - intros [c [Hc Heq]]. apply String.eqb_eq in Heq. now subst.
  - intros H. exists name. split; [assumption | apply String.eqb_refl].
Qed.

Lemma has_column_absent (df : DataFrame) (name : string) :
  has_column df name = false <-> ~ In name (columns df).
Proof.
  rewrite <- has_column_In. destruct (has_column df name); split; congruence.
Qed.

Lemma filter_keeps_columns (df : DataFrame) (filter_value : string) :
  columns (filter_extract_by_prodhier df filter_value) = columns df.
Proof.
  unfold filter_extract_by_prodhier.
  now destruct (col_pos "ProdHier" (columns df)).
Qed.

(** X4: [find_date_column] returns the first of [Time], [Date],
    [PER_DESCRIPTION], [Week ending], [Period] that is a column of the
    frame, and [None] exactly when none of the five is; the row filter does
    not change the answer; and [compare_files], past validation and the
    filter, fails with [DateColumnNotFound] as soon as one frame has none. *)
Theorem find_date_column_priority (df : DataFrame) :
  (forall c,
      find_date_column df = Some c <->
      exists before after,
        date_columns_to_try = before ++ c :: after /\ In c (columns df) /\
        forall q, In q before -> ~ In q (columns df)) /\
  (find_date_column df = None <->
   forall q, In q date_columns_to_try -> ~ In q (columns df)) /\
  (forall filter_value,
      find_date_column (filter_extract_by_prodhier df filter_value)
      = find_date_column df) /\
  (forall unify_name extract_name df1 mapping_pattern m,
      validate_file_mappings self unify_name extract_name = Validated mapping_pattern ->
      dict_get (mappings self) mapping_pattern = Some m ->
      empty (filter_extract_by_prodhier df (prod_hier_filter m)) = false ->
      find_date_column df1 = None \/ find_date_column df = None ->
      compare_files self unify_name extract_name df1 df = Failed DateColumnNotFound).
Proof.
  split; [|split; [|split]].
  - intros c. unfold find_date_column. rewrite find_first.
    split; intros [before [after [Hc [Hin Hb]]]]; exists before, after;
      (split; [assumption | split; [now apply has_column_In |]]);
      intros q Hq; apply has_column_absent; auto.
  - unfold find_date_column. rewrite find_nothing.
    split; intros H q Hq; apply has_column_absent; auto.
  - intros filter_value. unfold find_date_column, has_column.
    now rewrite filter_keeps_columns.
  - intros unify_name extract_name df1 mapping_pattern m Hv Hm Hempty Hnone.
    unfold compare_files. rewrite Hv, Hm, Hempty.
    destruct Hnone as [-> | H2]; [reflexivity|].
    assert (find_date_column (filter_extract_by_prodhier df (prod_hier_filter m))
            = None) as H3.
    { rewrite <- H2. unfold find_date_column, has_column.
      now rewrite filter_keeps_columns. }
    rewrite H3. now destruct (find_date_column df1).
Qed.

Lemma filter_twice {A} (f : A -> bool) (l : list A) :
  filter f (filter f l) = filter f l.
Proof.
  induction l as [|x l IH]; simpl; [reflexivity|].
  destruct (f x) eqn:E; simpl; [now rewrite E, IH | exact IH].
Qed.

Lemma filter_shorter {A} (f : A -> bool) (l : list A) :
  length (filter f l) <= length l.
Proof.
  induction l as [|x l IH]; simpl; [lia|]. destruct (f x); simpl; lia.
Qed.

(** X5: the row filter is idempotent, keeps the header, never adds a
    row, and keeps the index labels the surviving rows had before; with the
    filter column present, a frame none of whose rows carries the value comes
    out empty. *)
Theorem filter_extract_idempotent (df : DataFrame) (filter_value : string) :
  let filtered := filter_extract_by_prodhier df filter_value in
  filter_extract_by_prodhier filtered filter_value = filtered /\
  header filtered = header df /\
  length (rows filtered) <= length (rows df) /\
  (forall r, In r (rows filtered) -> In r (rows df)) /\
  (forall j,
      col_pos "ProdHier" (columns df) = Some j ->
      (forall r, In r (rows df) -> cell j r <> PyStr filter_value) ->
      empty filtered = true).
Proof.
  intros filtered. subst filtered. unfold filter_extract_by_prodhier.
  destruct (col_pos "ProdHier" (columns df)) as [j|] eqn:Hj.
  - unfold columns at 1. simpl. fold (columns df). rewrite Hj. simpl.
    split; [now rewrite filter_twice|]. split; [reflexivity|].
    split; [apply filter_shorter|].
    split; [intros r Hr; now apply filter_In in Hr|].
    intros j' [= <-] Hnone. unfold empty. simpl.
    replace (filter (fun r => equals_str (cell j r) filter_value) (rows df))
      with (@nil row); [reflexivity|].
    symmetry. induction (rows df) as [|r l IH]; simpl; [reflexivity|].
    destruct (equals_str (cell j r) filter_value) eqn:E.
    + apply equals_str_eq in E. exfalso. apply (Hnone r); [now left | exact E].
    + apply IH. intros r' Hr'. apply Hnone. now right.
  - rewrite Hj. split; [reflexivity|]. split; [reflexivity|].
    split; [lia|]. split; [auto | discriminate].
Qed.

End FramesMore.

Section DatesMore.

Context {rt : PyRuntime}.
Variable self : StreamlitExcelComparator.

Lemma date_shape_head (s : string) :
  date_shape s = true ->
  String.length (substring 0 10 s) = 10%nat /\
  date_shape (substring 0 10 s) = true /\
  exists rest, s = (substring 0 10 s ++ rest)%string.
Proof.
  destruct s as [|c1 [|c2 [|c3 [|c4 [|c5 [|c6 [|c7 [|c8 [|c9 [|c10 rest]]]]]]]]]];
    try discriminate.
  intros H. split; [now destruct rest|].
  split; [|exists rest; now destruct rest].
  replace (substring 0 10
             (String c1 (String c2 (String c3 (String c4 (String c5 (String c6
             (String c7 (String c8 (String c9 (String c10 rest)))))))))))
    with (String c1 (String c2 (String c3 (String c4 (String c5 (String c6
         (String c7 (String c8 (String c9 (String c10 EmptyString))))))))))
    by now destruct rest.
  exact H.
Qed.

(** X6: the text captured from a [Week ending] value is a run of the
    value, ten characters long, of the shape two digits, dash, two digits,
    dash, four digits; nothing is captured exactly when no position of the
    value starts such a run, and the value then becomes [nan]. *)
Theorem extract_date_shape (s : string) :
  (forall d, extract_date s = Some d ->
     PyStr.occurs_in d s /\ String.length d = 10%nat /\ date_shape d = true) /\
  (extract_date s = None <->
   forall before after, s = (before ++ after)%string -> date_shape after = false) /\
  (extract_date s = None -> str_extract (PyStr s) = PyFloat nan).
Proof.
  split; [|split].
  - induction s as [|c s IH]; intros d.
    + simpl. discriminate.
    + cbn [extract_date]. destruct (date_shape (String c s)) eqn:Hs.
      * intros [= <-]. destruct (date_shape_head _ Hs) as [Hlen [Hshape [rest Hrest]]].
        split; [|now split]. exists EmptyString, rest. exact Hrest.
      * intros H. destruct (IH d H) as [[a [b Hocc]] Hrest].
        split; [|exact Hrest]. exists (String c a), b. simpl. now rewrite Hocc.
  - induction s as [|c s IH].
    + simpl. split; [|reflexivity].
      intros _ [|x before] after H; simpl in H; [now subst | discriminate].
    + cbn [extract_date]. destruct (date_shape (String c s)) eqn:Hs.
      * split; [discriminate|]. intros H.
        specialize (H EmptyString (String c s) eq_refl). congruence.
      * rewrite IH. split.
        -- intros H [|x before] after Heq.
           ++ simpl in Heq. now subst.
           ++ simpl in Heq. injection Heq as _ Heq. now apply (H before).
        -- intros H before after Heq. apply (H (String c before)).
           simpl. now rewrite Heq.
  - intros H. unfold str_extract. now rewrite H.
Qed.

Lemma set_nth_names (name : string) (dt : Dtype) (h : list (string * Dtype)) (j : nat) :
  col_pos name (map fst h) = Some j ->
  map fst (set_nth j (name, dt) h) = map fst h.
Proof.
  revert j; induction h as [|[c d] h IH]; intros j; simpl; [discriminate|].
  destruct (String.eqb_spec c name) as [->|Hne].
  - now intros [= <-].
  - destruct (col_pos name (map fst h)) as [k|]; simpl; [|discriminate].
    intros [= <-]. simpl. now rewrite IH.
Qed.

Lemma set_column_columns (df : DataFrame) (name : string) (dt : Dtype)
    (values : list scalar) :
  columns (set_column df name dt values) =
  if has_column df name then columns df else columns df ++ [name].
Proof.
  unfold set_column, has_column.
  destruct (col_pos name (columns df)) as [j|] eqn:Hj.
  - assert (existsb (String.eqb name) (columns df) = true) as ->
        by (apply col_pos_has; now exists j).
    unfold columns. simpl. now apply set_nth_names.
  - apply col_pos_lacks in Hj. rewrite Hj.
    unfold columns. simpl. now rewrite map_app.
Qed.

Lemma combine_first {A B} (l : list A) (l' : list B) :
  length l' = length l -> map fst (combine l l') = l.
Proof.
  revert l'; induction l as [|x l IH]; intros [|y l']; simpl;
    try reflexivity; try discriminate.
  intros [= H]. now rewrite IH.
Qed.

Lemma set_column_index (df : DataFrame) (name : string) (dt : Dtype)
    (values : list scalar) :
  length values = length (rows df) ->
  index (set_column df name dt values) = index df.
Proof.
  intros H. unfold set_column, index.
  destruct (col_pos name (columns df)); simpl; rewrite map_map; simpl;
    rewrite <- (map_map fst fst), combine_first by exact H; reflexivity.
Qed.

Lemma parsed_dates_length (dt : Dtype) (values dates : list scalar) :
  parsed_dates dt values = Ok dates -> length dates = length values.
Proof.
  unfold parsed_dates.
  destruct (week_ending_test dt values) as [[|]|e]; simpl; [| |discriminate];
    unfold to_datetime; intros H; apply mapM_length in H;
    [now rewrite length_map in H | exact H].
Qed.

(** X7: [parse_dates] leaves the rows and their index labels as they
    were and keeps every column: all it may do is overwrite the [Date]
    column in place or append one; without the named column it returns the
    frame itself. *)
Theorem parse_dates_keeps_frame (df : DataFrame) (col_name : string) :
  index (parse_dates df col_name) = index df /\
  length (rows (parse_dates df col_name)) = length (rows df) /\
  (columns (parse_dates df col_name) = columns df \/
   (has_column df "Date" = false /\
    columns (parse_dates df col_name) = columns df ++ ["Date"])) /\
  (forall name, has_column df name = true ->
                has_column (parse_dates df col_name) name = true) /\
  (has_column df col_name = false -> parse_dates df col_name = df).
Proof.
  unfold parse_dates.
  destruct (col_pos col_name (columns df)) as [j|] eqn:Hj.
  - destruct (parsed_dates (column_dtype df j) (column_values df j))
      as [dates|e] eqn:Hp.
    + assert (length dates = length (rows df)) as Hlen.
      { rewrite <- (column_values_length df j). now apply parsed_dates_length in Hp. }
      assert (columns (set_column df "Date" datetime64 dates) = columns df \/
              (has_column df "Date" = false /\
               columns (set_column df "Date" datetime64 dates) = columns df ++ ["Date"]))
        as Hcols.
      { rewrite set_column_columns. destruct (has_column df "Date"); auto. }
      split; [now apply set_column_index|].
      split; [now apply set_column_rows|].
      split; [exact Hcols|]. split.
      * intros name Hn. unfold has_column in *.
        destruct Hcols as [-> | [_ ->]]; [exact Hn|].
        rewrite existsb_app, Hn. reflexivity.
      * intros H. unfold has_column in H. apply col_pos_lacks in H. congruence.
    + repeat split; auto.
  - repeat split; auto.
Qed.

End DatesMore.

(** ** Cell comparison, case by case *)

Section FloatOrder.

Lemma Prim2SF_zero : Prim2SF 0 = S754_zero false.
Proof. reflexivity. Qed.

(** Nothing at or above zero is below zero. *)
Lemma not_below_zero (t : float) :
  (0 <=? t)%float = true -> (t <? 0)%float = false.
Proof.
  rewrite leb_spec, ltb_spec, Prim2SF_zero. unfold SFleb, SFltb.
  destruct (Prim2SF t) as [s|s| |s m e]; simpl; try reflexivity;
    destruct s; simpl; intros H; try reflexivity; discriminate.
Qed.

(** What lies above a threshold at or above zero is no zero. *)
Lemma above_nonnegative_nonzero (t d : float) :
  (0 <=? t)%float = true -> (t <? d)%float = true -> (d =? 0)%float = false.
Proof.
  rewrite leb_spec, ltb_spec, eqb_spec, Prim2SF_zero. unfold SFleb, SFltb, SFeqb.
  destruct (Prim2SF d) as [sd|sd| |sd md ed]; simpl;
    try (intros; destruct sd; reflexivity).
  - destruct (Prim2SF t) as [s|s| |s m e]; simpl; try congruence;
      destruct s; simpl; congruence.
  - intros _. now destruct (Prim2SF t).
Qed.

End FloatOrder.

Section CompareMore.

Context {rt : PyRuntime}.
Variable self : StreamlitExcelComparator.

Lemma py_float_raises (v : scalar) (e : exn) :
  py_float v = Raise e -> e = ValueError \/ e = TypeError \/ e = OverflowError.
Proof.
  destruct v; simpl; try (intros [= <-]; auto).
  - unfold float_of_int. destruct (is_infinity _); [intros [= <-]; auto | discriminate].
  - destruct (float_of_str s); [discriminate | intros [= <-]; auto].
Qed.

Lemma py_float_or_zero_float (v : scalar) :
  float_or_none v -> exists f, py_float (or_zero v) = Ok f.
Proof.
  destruct v; simpl; try contradiction; intros _.
  - now exists 0%float.
  - destruct (py_float_or_zero f) as [f' [H _]]. now exists f'.
Qed.

(** X8: [compare_values] raises nothing but [ValueError], [TypeError] or
    [OverflowError], and raises nothing at all when each of the two values
    is a float, [nan] included, or [None]. *)
Theorem compare_values_exceptions (val1 val2 : scalar) :
  (forall e, compare_values self val1 val2 = Raise e ->
             e = ValueError \/ e = TypeError \/ e = OverflowError) /\
  (float_or_none val1 -> float_or_none val2 ->
   exists cmp, compare_values self val1 val2 = Ok cmp).
Proof.
  unfold compare_values. split.
  - intros e. destruct (isna val1 && isna val2); [discriminate|].
    destruct (isna val1 || isna val2).
    + destruct (py_float (or_zero val1)) as [f1|e1] eqn:H1; simpl.
      * destruct (py_float (or_zero val2)) as [f2|e2] eqn:H2; simpl; [discriminate|].
        intros [= <-]. now apply py_float_raises in H2.
      * intros [= <-]. now apply py_float_raises in H1.
    + destruct (py_float val1) as [f1|e1] eqn:H1; simpl.
      * destruct (py_float val2) as [f2|e2] eqn:H2; simpl; [discriminate|].
        apply py_float_raises in H2.
        destruct e2; try discriminate; intros [= <-]; auto.
      * apply py_float_raises in H1.
        destruct e1; try discriminate; intros [= <-]; auto.
  - intros F1 F2. destruct (isna val1 && isna val2); [eexists; reflexivity|].
    destruct (isna val1 || isna val2).
    + destruct (py_float_or_zero_float val1 F1) as [f1 ->].
      destruct (py_float_or_zero_float val2 F2) as [f2 ->].
      simpl. eexists; reflexivity.
    + destruct val1, val2; simpl in *; try contradiction;
        try (eexists; reflexivity).
Qed.

(** X9: when both values are missing the pair is judged equal: nothing
    is appended to the mismatch list and no difference is counted, while the
    comparison still counts in the total. *)
Theorem both_missing_never_recorded (col1 col2 : string) (d val1 val2 : scalar)
    (st : LoopState) :
  isna val1 = true -> isna val2 = true ->
  compare_values self val1 val2 = Ok (None, 0%float) /\
  record_comparison self col1 col2 d val1 val2 st
  = Ok {| mismatch_rows := mismatch_rows st;
          total_comparisons := S (total_comparisons st);
          significant_differences := significant_differences st |}.
Proof.
  intros H1 H2.
  assert (compare_values self val1 val2 = Ok (None, 0%float)) as Hc
      by (unfold compare_values; now rewrite H1, H2).
  split; [exact Hc|]. unfold record_comparison. now rewrite Hc.
Qed.

(** X10: for two values that are present and convert to floats, the
    difference is the magnitude of their float difference, the pair is
    different exactly when that exceeds the threshold, and the second
    threshold test of the loop adds nothing: the pair is recorded exactly
    when it is judged different. *)
Theorem numeric_pair_recorded_iff_different (val1 val2 : scalar) (a b : float) :
  isna val1 = false -> isna val2 = false ->
  py_float val1 = Ok a -> py_float val2 = Ok b ->
  let diff := abs (a - b) in
  compare_values self val1 val2 = Ok (Some (threshold self <? diff)%float, diff) /\
  significant self (Some (threshold self <? diff)%float) diff
  = (threshold self <? diff)%float.
Proof.
  intros N1 N2 Ha Hb diff. unfold compare_values.
  rewrite N1, N2, Ha, Hb. simpl. split; [reflexivity|].
  unfold significant. fold diff. now destruct (threshold self <? diff)%float.
Qed.

(** X11: a text that is no number, set against a present value, gives
    the raw inequality of the two as the verdict and zero as the difference;
    under a threshold at or above zero such a pair never passes the
    threshold test, so differing texts never reach the mismatch list. *)
Theorem text_cell_difference_zero (s : string) (v : scalar) :
  float_of_str s = None -> isna v = false ->
  compare_values self (PyStr s) v = Ok (Some (py_ne (PyStr s) v), 0%float) /\
  (forall a, py_float v = Ok a ->
             compare_values self v (PyStr s) = Ok (Some (py_ne v (PyStr s)), 0%float)) /\
  ((0 <=? threshold self)%float = true ->
   forall is_different, significant self is_different 0 = false).
Proof.
  intros Hs Hv. unfold compare_values. simpl isna. rewrite Hv. simpl.
  rewrite Hs. simpl. split; [reflexivity|]. split.
  - intros a Ha. rewrite Ha. simpl. now rewrite ?Hs.
  - intros Ht is_different. unfold significant.
    now rewrite (not_below_zero _ Ht), andb_false_r.
Qed.

(** X12: a non-empty text that is no number, set against a missing
    value ([None] or [nan]), is not caught by the [try]: [compare_values]
    raises [ValueError] whichever side the text is on; the empty text counts
    as zero instead. *)
Theorem text_against_missing_raises (s : string) (missing : scalar) :
  float_of_str s = None -> s <> EmptyString ->
  missing = PyNone \/ missing = PyFloat nan ->
  compare_values self missing (PyStr s) = Raise ValueError /\
  compare_values self (PyStr s) missing = Raise ValueError /\
  compare_values self PyNone (PyStr EmptyString) = Ok (Some true, 0%float).
Proof.
  intros Hs Hne Hm.
  assert (or_zero (PyStr s) = PyStr s) as Hor.
  { unfold or_zero, truthy. destruct (String.eqb_spec s EmptyString); [contradiction|].
    reflexivity. }
  assert (py_float (PyStr s) = Raise ValueError) as Hf by (simpl; now rewrite Hs).
  unfold compare_values.
  destruct Hm as [-> | ->]; simpl isna; simpl andb; simpl orb; cbv iota;
    rewrite Hor, Hf; repeat split.
Qed.

End CompareMore.

(** ** The column correspondence as a dictionary *)

Section AlignerMore.

Variable self : StreamlitExcelComparator.

Lemma dict_set_keys {V} (d : dict V) (k : string) (v : V) :
  keys (dict_set d k v) = if existsb (String.eqb k) (keys d) then keys d else keys d ++ [k].
Proof.
  induction d as [|[k' v'] d IH]; simpl; [reflexivity|].
  rewrite (String.eqb_sym k k').
  destruct (k' =? k)%string; simpl; [reflexivity|].
  change (map fst (dict_set d k v)) with (keys (dict_set d k v)).
  change (map fst d) with (keys d). rewrite IH.
  now destruct (existsb (String.eqb k) (keys d)).
Qed.

Lemma dict_set_NoDup {V} (d : dict V) (k : string) (v : V) :
  NoDup (keys d) -> NoDup (keys (dict_set d k v)).
Proof.
  intros H. rewrite dict_set_keys.
  destruct (existsb (String.eqb k) (keys d)) eqn:E; [exact H|].
  apply NoDup_app; [exact H | repeat constructor; intros [] |].
  intros x Hx [Heq | []]. subst x.
  assert (existsb (String.eqb k) (keys d) = true) as Habs.
  { apply existsb_exists. exists k. split; [exact Hx | apply String.eqb_refl]. }
  congruence.
Qed.

Lemma dict_set_length {V} (d : dict V) (k : string) (v : V) :
  length (dict_set d k v) <= S (length d).
Proof.
  induction d as [|[k' v'] d IH]; simpl; [lia|].
  destruct (k' =? k)%string; simpl; lia.
Qed.

Lemma dict_get_In {V} (d : dict V) (k : string) (v : V) :
  NoDup (keys d) -> (dict_get d k = Some v <-> In (k, v) d).
Proof.
  induction d as [|[k' v'] d IH]; simpl; [intros _; split; [discriminate | intros []]|].
  intros Hnd. inversion Hnd as [|? ? Hk Hrest]; subst.
  destruct (String.eqb_spec k' k) as [->|Hne].
  - split.
    + intros [= ->]. now left.
    + intros [[= ->] | Hin]; [reflexivity|].
      exfalso. apply Hk. change k with (fst (k, v)). now apply in_map.
  - rewrite (IH Hrest). split; [now right|].
    intros [[= -> _] | Hin]; [contradiction | exact Hin].
Qed.

(** A round that stores a pair stores two non-empty column names, each
    taken from its own column list. *)
Lemma align_target_stores (df1_cols df2_cols : list string)
    (column_map : dict string) (target_col : string) :
  align_target df1_cols df2_cols column_map target_col = column_map \/
  exists c1 c2,
    In c1 df1_cols /\ In c2 df2_cols /\ c1 <> EmptyString /\ c2 <> EmptyString /\
    align_target df1_cols df2_cols column_map target_col = dict_set column_map c1 c2.
Proof.
  unfold align_target.
  destruct (first_match target_col df1_cols) as [c1|] eqn:H1;
    destruct (first_match target_col df2_cols) as [c2|] eqn:H2; auto.
  unfold found.
  destruct (String.eqb_spec c1 EmptyString) as [->|N1]; simpl; auto.
  destruct (String.eqb_spec c2 EmptyString) as [->|N2]; simpl; auto.
  right. exists c1, c2. apply find_some in H1. apply find_some in H2.
  repeat split; tauto.
Qed.

Lemma align_all_invariant (df1_cols df2_cols targets : list string)
    (P : dict string -> Prop) (column_map : dict string) :
  P column_map ->
  (forall d c1 c2, P d -> In c1 df1_cols -> In c2 df2_cols ->
                   c1 <> EmptyString -> c2 <> EmptyString -> P (dict_set d c1 c2)) ->
  P (fold_left (align_target df1_cols df2_cols) targets column_map).
Proof.
  revert column_map; induction targets as [|t targets IH];
    intros column_map H0 Hstep; simpl; [exact H0|].
  apply IH; [|exact Hstep].
  destruct (align_target_stores df1_cols df2_cols column_map t)
    as [-> | [c1 [c2 [I1 [I2 [N1 [N2 ->]]]]]]]; auto.
Qed.

Lemma align_all_length (df1_cols df2_cols targets : list string)
    (column_map : dict string) :
  length (fold_left (align_target df1_cols df2_cols) targets column_map)
  <= length column_map + length targets.
Proof.
  revert column_map; induction targets as [|t targets IH];
    intros column_map; simpl; [lia|].
  specialize (IH (align_target df1_cols df2_cols column_map t)).
  destruct (align_target_stores df1_cols df2_cols column_map t)
    as [Heq | [c1 [c2 [_ [_ [_ [_ Heq]]]]]]]; rewrite Heq in *.
  - lia.
  - pose proof (dict_set_length column_map c1 c2). lia.
Qed.

(** X13: the correspondence [get_column_mapping] builds is a proper
    dictionary over the two column lists: its keys are pairwise distinct
    columns of the first frame, its values columns of the second, none of
    them the empty name, so looking a key up yields its one entry; it has at
    most one entry per expected name, and it is empty for a pattern that is
    not in the catalog. *)
Theorem column_mapping_is_dictionary (mapping_pattern : string)
    (df1_cols df2_cols : list string) :
  let column_map := get_column_mapping self mapping_pattern df1_cols df2_cols in
  NoDup (keys column_map) /\
  (forall c1 c2, In (c1, c2) column_map ->
     In c1 df1_cols /\ In c2 df2_cols /\ c1 <> EmptyString /\ c2 <> EmptyString) /\
  (forall c1 c2, dict_get column_map c1 = Some c2 <-> In (c1, c2) column_map) /\
  (forall m, dict_get (mappings self) mapping_pattern = Some m ->
             length column_map <= length (geographies m)) /\
  (dict_get (mappings self) mapping_pattern = None -> column_map = []).
Proof.
  intros column_map. subst column_map. unfold get_column_mapping.
  destruct (dict_get (mappings self) mapping_pattern) as [m|].
  - assert (NoDup (keys (fold_left (align_target df1_cols df2_cols) (geographies m) [])))
      as Hnd.
    { apply (align_all_invariant df1_cols df2_cols (geographies m)
               (fun d => NoDup (keys d))); [constructor|].
      intros d c1 c2 Hd _ _ _ _. now apply dict_set_NoDup. }
    split; [exact Hnd|]. split; [|split; [|split]].
    + apply (align_all_invariant df1_cols df2_cols (geographies m)
               (fun d => forall c1 c2, In (c1, c2) d ->
                  In c1 df1_cols /\ In c2 df2_cols /\
                  c1 <> EmptyString /\ c2 <> EmptyString)); [intros ? ? []|].
      intros d k v Hd I1 I2 N1 N2 c1 c2 Hin.
      apply dict_set_In in Hin. destruct Hin as [[= -> ->] | Hin]; auto.
    + intros c1 c2. now apply dict_get_In.
    + intros m' [= <-].
      apply (align_all_length df1_cols df2_cols (geographies m) []).
    + discriminate.
  - split; [constructor|]. split; [intros ? ? []|].
    split; [intros c1 c2; split; [discriminate | intros []]|].
    split; [discriminate | reflexivity].
Qed.

End AlignerMore.

(** ** The stages of [compare_files] *)

Section Stages.

Context {rt : PyRuntime}.
Variable self : StreamlitExcelComparator.

Lemma validated_matches (file1_name file2_name p : string) :
  validate_file_mappings self file1_name file2_name = Validated p ->
  match_filename_to_mapping self file1_name = Some p /\
  match_filename_to_mapping self file2_name = Some p.
Proof.
  unfold validate_file_mappings.
  destruct (match_filename_to_mapping self file1_name) as [a|];
    destruct (match_filename_to_mapping self file2_name) as [b|]; try discriminate.
  destruct (String.eqb_spec a b) as [->|Hne]; simpl; [|discriminate].
  now intros [= <-].
Qed.

Lemma validated_entry (file1_name file2_name p : string) :
  validate_file_mappings self file1_name file2_name = Validated p ->
  exists m, dict_get (mappings self) p = Some m.
Proof.
  intros H. apply validated_matches in H. destruct H as [H _].
  apply dict_get_key. now apply (match_filename_key self file1_name).
Qed.

Lemma rejected_kinds (file1_name file2_name : string) (f : failure) :
  validate_file_mappings self file1_name file2_name = Rejected f ->
  (exists missing, f = UnmappedFile missing) \/
  (exists p1 p2, f = PatternMismatch p1 p2).
Proof.
  unfold validate_file_mappings.
  destruct (match_filename_to_mapping self file1_name) as [a|];
    destruct (match_filename_to_mapping self file2_name) as [b|];
    try (intros [= <-]; left; eexists; reflexivity).
  destruct (negb (a =? b)%string); [|discriminate].
  intros [= <-]. right. now exists a, b.
Qed.

Lemma set_index_present (df : DataFrame) (name : string) :
  has_column df name = true -> exists indexed, set_index df name = Ok indexed.
Proof.
  unfold has_column, set_index. intros H. apply col_pos_has in H.
  destruct H as [j ->]. eexists; reflexivity.
Qed.

Lemma compare_files_stage (unify_name extract_name : string) (df1 df2 : DataFrame) :
  stage self unify_name extract_name df1 df2
        (compare_files self unify_name extract_name df1 df2).
Proof.
  unfold compare_files.
  destruct (validate_file_mappings self unify_name extract_name) as [p|f] eqn:Hv;
    [|now apply stage_rejected].
  destruct (validated_entry _ _ _ Hv) as [m Hm]. rewrite Hm.
  destruct (empty (filter_extract_by_prodhier df2 (prod_hier_filter m))) eqn:He;
    [now apply stage_empty with p|].
  destruct (find_date_column df1) as [c1|] eqn:H1;
    [|apply stage_no_date_column with p m; auto].
  destruct (find_date_column (filter_extract_by_prodhier df2 (prod_hier_filter m)))
    as [c2|] eqn:H2; [|apply stage_no_date_column with p m; auto].
  destruct (has_column (parse_dates df1 c1) "Date") eqn:D1;
    [|apply stage_unparsed with p m c1 c2; auto].
  destruct (has_column (parse_dates (filter_extract_by_prodhier df2 (prod_hier_filter m)) c2)
                       "Date") eqn:D2;
    [|apply stage_unparsed with p m c1 c2; auto].
  destruct (set_index_present _ _ D1) as [i1 E1].
  destruct (set_index_present _ _ D2) as [i2 E2].
  simpl. rewrite E1, E2. now apply stage_reconciled with c1 c2.
Qed.

End Stages.

(** ** What a completed comparison holds *)

Section EngineMore.

Context {rt : PyRuntime}.
Variable self : StreamlitExcelComparator.

Lemma foldM_invariant {A S} (f : S -> A -> result S) (P : S -> Prop) (l : list A) :
  (forall s x s', In x l -> P s -> f s x = Ok s' -> P s') ->
  forall s s', P s -> foldM f l s = Ok s' -> P s'.
Proof.
  induction l as [|x l IH]; intros Hf s s' Hs; simpl.
  - now intros [= <-].
  - destruct (f s x) as [s1|e] eqn:Hx; simpl; [|discriminate].
    apply IH.
    + intros s0 y s0' Hy. apply Hf. now right.
    + apply (Hf s x s1); auto. now left.
Qed.

Lemma compare_cell_bound (df1_aligned df2_aligned : DataFrame)
    (cols : string * string) (d : scalar) (st st' : LoopState) :
  compare_cell self df1_aligned df2_aligned cols st d = Ok st' ->
  significant_differences st <= total_comparisons st ->
  significant_differences st' <= total_comparisons st'.
Proof.
  unfold compare_cell.
  destruct (at_ df1_aligned d (fst cols)) as [val1|e]; simpl; [|discriminate].
  destruct (at_ df2_aligned d (snd cols)) as [val2|e]; simpl; [|discriminate].
  intros H. apply record_comparison_cases in H.
  destruct H as [i [x [_ [Ht [[_ [day [_ [_ Hs]]]] | [_ [_ Hs]]]]]]]; lia.
Qed.

Lemma compare_columns_bound (df1_aligned df2_aligned : DataFrame)
    (column_map : dict string) (common : list scalar) (st : LoopState) :
  compare_columns self df1_aligned df2_aligned column_map common = Ok st ->
  significant_differences st <= total_comparisons st.
Proof.
  unfold compare_columns.
  apply (foldM_invariant _
           (fun s => significant_differences s <= total_comparisons s)); [|simpl; lia].
  intros s cols s' _ Hs.
  apply (foldM_invariant _
           (fun s => significant_differences s <= total_comparisons s)); [|exact Hs].
  intros s0 d s0' _ Hs0 Hstep. now apply compare_cell_bound in Hstep.
Qed.

(** What stands behind an outcome of [reconcile]. *)
Lemma reconcile_outcome (mapping_pattern filter_value : string)
    (df1 df2 : DataFrame) (o : ComparisonOutcome) :
  reconcile self mapping_pattern filter_value df1 df2 = Compared o ->
  let common := index_intersection (index df1) (index df2) in
  let column_map := get_column_mapping self mapping_pattern (columns df1) (columns df2) in
  common <> [] /\ column_map <> [] /\
  matched_pattern o = mapping_pattern /\ category_filter o = filter_value /\
  common_dates o = common /\
  new_dates o = index_difference (index df2) (index df1) /\
  exists st,
    compare_columns self (loc df1 common) (loc df2 common) column_map common = Ok st /\
    mismatches o = mismatch_rows st /\
    total o = total_comparisons st /\
    significant_count o = significant_differences st.
Proof.
  intros H common column_map. unfold reconcile in H.
  fold common in H.
  change (columns (loc df1 common)) with (columns df1) in H.
  change (columns (loc df2 common)) with (columns df2) in H.
  fold column_map in H.
  destruct (length common =? 0)%nat eqn:Hlen; [discriminate|].
  assert (common <> []) as Hc by (intros E; rewrite E in Hlen; discriminate).
  destruct column_map as [|entry rest] eqn:Hmap; [discriminate|].
  destruct (compare_columns self (loc df1 common) (loc df2 common) (entry :: rest) common)
    as [st|e] eqn:Hloop; [|discriminate].
  injection H as <-. simpl.
  split; [exact Hc|]. split; [discriminate|].
  repeat (split; [reflexivity|]). now exists st.
Qed.

(** X14: a comparison that completes was run under the one catalog
    entry both file names match, with that entry's filter value; it made at
    least one comparison, counted no more significant differences than
    comparisons and exactly as many as it lists mismatches, so the success
    rate is taken over a positive total; its common dates are non-empty,
    listed once each, and none of them is among its new dates, which are
    listed once each as well. *)
Theorem completed_comparison_summary (unify_name extract_name : string)
    (df1 df2 : DataFrame) (o : ComparisonOutcome) :
  compare_files self unify_name extract_name df1 df2 = Compared o ->
  match_filename_to_mapping self unify_name = Some (matched_pattern o) /\
  match_filename_to_mapping self extract_name = Some (matched_pattern o) /\
  (exists m, dict_get (mappings self) (matched_pattern o) = Some m /\
             category_filter o = prod_hier_filter m) /\
  1 <= total o /\
  significant_count o <= total o /\
  significant_count o = length (mismatches o) /\
  common_dates o <> [] /\
  NoDup (common_dates o) /\ NoDup (new_dates o) /\
  (forall d, In d (common_dates o) -> ~ In d (new_dates o)).
Proof.
  intros H. pose proof (compare_files_stage self unify_name extract_name df1 df2) as Hs.
  rewrite H in Hs.
  inversion Hs as [| | | |p m c1 c2 i1 i2 Hv Hm He H1 H2 E1 E2 Hr]. clear Hs.
  apply reconcile_outcome in Hr. simpl in Hr.
  destruct Hr as [Hc [Hmap [Hp [Hf [Hcd [Hnd [st [Hloop [Hrows [Ht Hsig]]]]]]]]]].
  destruct (validated_matches self _ _ _ Hv) as [M1 M2].
  pose proof (compare_columns_bound _ _ _ _ _ Hloop) as Hbound.
  unfold compare_columns in Hloop. apply compare_columns_steps in Hloop.
  simpl in Hloop. destruct Hloop as [Htotal [added [Hadded [Hcount _]]]].
  rewrite Hp. split; [exact M1 | split; [exact M2|]].
  split; [exists m; split; [exact Hm | exact Hf]|].
  split.
  { rewrite Ht, Htotal.
    destruct (get_column_mapping self p (columns i1) (columns i2)); [contradiction|].
    destruct (index_intersection (index i1) (index i2)); [contradiction|].
    simpl. lia. }
  split; [rewrite Hsig, Ht; exact Hbound|].
  split; [rewrite Hsig, Hrows, Hadded, Hcount; reflexivity|].
  rewrite Hcd, Hnd.
  split; [exact Hc|]. split; [apply unique_NoDup|]. split; [apply unique_NoDup|].
  intros d Hd Hn. apply intersection_In in Hd. apply difference_In in Hn. tauto.
Qed.

End EngineMore.

(** ** Exceptions inside a comparison *)

Section Exceptions.

Context {rt : PyRuntime}.
Variable self : StreamlitExcelComparator.

Lemma foldM_raises_at {A S} (f : S -> A -> result S) (l : list A) (s : S) (e : exn) :
  foldM f l s = Raise e -> exists s' x, In x l /\ f s' x = Raise e.
Proof.
  revert s; induction l as [|x l IH]; intros s; simpl; [discriminate|].
  destruct (f s x) as [s1|e1] eqn:Hx; simpl.
  - intros H. destruct (IH _ H) as [s' [y [Hy Hf]]]. exists s', y. auto.
  - intros [= <-]. exists s, x. auto.
Qed.

Lemma foldM_raises_some {A S} (f : S -> A -> result S) (l : list A) (x : A) :
  In x l -> (forall s, exists e, f s x = Raise e) ->
  forall s, exists e, foldM f l s = Raise e.
Proof.
  induction l as [|y l IH]; [intros []|].
  intros [-> | Hin] Hx s; simpl.
  - destruct (Hx s) as [e ->]. now exists e.
  - destruct (f s y) as [s1|e1]; simpl; [now apply IH | now exists e1].
Qed.

Lemma col_pos_present (name : string) (cols : list string) :
  In name cols -> exists j, col_pos name cols = Some j.
Proof.
  intros H. apply col_pos_has. apply existsb_exists.
  exists name. split; [exact H | apply String.eqb_refl].
Qed.

(** A label of the frame that is among the labels asked for has a row in
    [loc]. *)
Lemma loc_has_row (df : DataFrame) (labels : list scalar) (d : scalar) :
  In d labels -> In d (index df) ->
  filter (fun r => scalar_eqb (fst r) d) (rows (loc df labels)) <> [].
Proof.
  intros Hl Hi. unfold index in Hi. apply in_map_iff in Hi.
  destruct Hi as [r [Hr Hin]].
  assert (In r (filter (fun r => scalar_eqb (fst r) d) (rows (loc df labels)))) as H.
  { apply filter_In. split; [|now apply scalar_eqb_eq].
    simpl. apply in_flat_map. exists d. split; [exact Hl|].
    apply filter_In. split; [exact Hin | now apply scalar_eqb_eq]. }
  intros E. now rewrite E in H.
Qed.

Lemma at_aligned_raises (df : DataFrame) (labels : list scalar) (d : scalar)
    (col : string) (e : exn) :
  In d labels -> In d (index df) -> In col (columns df) ->
  at_ (loc df labels) d col = Raise e -> e = ValueError.
Proof.
  intros Hl Hi Hc. unfold at_.
  change (columns (loc df labels)) with (columns df).
  destruct (col_pos_present _ _ Hc) as [j ->].
  pose proof (loc_has_row df labels d Hl Hi) as Hrow.
  destruct (filter (fun r => scalar_eqb (fst r) d) (rows (loc df labels)))
    as [|r [|r' l]];
    [contradiction | discriminate | now intros [= <-]].
Qed.

Lemma strftime_raises (d : scalar) (e : exn) :
  strftime d = Raise e -> e = ValueError \/ e = AttributeError.
Proof. destruct d; simpl; intros [= <-]; auto. Qed.

Lemma column_mapping_entries (mapping_pattern : string)
    (df1_cols df2_cols : list string) (c1 c2 : string) :
  In (c1, c2) (get_column_mapping self mapping_pattern df1_cols df2_cols) ->
  In c1 df1_cols /\ In c2 df2_cols.
Proof.
  unfold get_column_mapping.
  destruct (dict_get (mappings self) mapping_pattern) as [m|]; [|intros []].
  revert c1 c2.
  apply (align_all_invariant df1_cols df2_cols (geographies m)
           (fun d => forall c1 c2, In (c1, c2) d -> In c1 df1_cols /\ In c2 df2_cols));
    [intros ? ? []|].
  intros d k v Hd I1 I2 _ _ c1 c2 Hin.
  apply dict_set_In in Hin. destruct Hin as [[= -> ->] | Hin]; auto.
Qed.

Lemma reconcile_raises (mapping_pattern filter_value : string)
    (df1 df2 : DataFrame) (e : exn) :
  reconcile self mapping_pattern filter_value df1 df2
  = Failed (ErrorDuringComparison e) ->
  comparison_exception e.
Proof.
  unfold reconcile.
  set (common := index_intersection (index df1) (index df2)).
  change (columns (loc df1 common)) with (columns df1).
  change (columns (loc df2 common)) with (columns df2).
  destruct (length common =? 0)%nat; [discriminate|].
  destruct (get_column_mapping self mapping_pattern (columns df1) (columns df2))
    as [|entry rest] eqn:Hmap; [discriminate|].
  destruct (compare_columns self (loc df1 common) (loc df2 common) (entry :: rest) common)
    as [st|e'] eqn:Hloop; [discriminate|].
  intros [= <-]. unfold compare_columns in Hloop.
  apply foldM_raises_at in Hloop. destruct Hloop as [s1 [[c1 c2] [Hcols Hinner]]].
  apply foldM_raises_at in Hinner. destruct Hinner as [s2 [d [Hd Hcell]]].
  rewrite <- Hmap in Hcols. apply column_mapping_entries in Hcols.
  destruct Hcols as [I1 I2].
  apply intersection_In in Hd. destruct Hd as [D1 D2].
  assert (In d common) as Hdc by (now apply intersection_In).
  unfold compare_cell, comparison_exception in *. simpl in Hcell.
  destruct (at_ (loc df1 common) d c1) as [v1|e1] eqn:A1; simpl in Hcell.
  - destruct (at_ (loc df2 common) d c2) as [v2|e2] eqn:A2; simpl in Hcell.
    + unfold record_comparison in Hcell.
      destruct (compare_values self v1 v2) as [cmp|e3] eqn:Hc; simpl in Hcell.
      * destruct (significant self (fst cmp) (snd cmp)); [|discriminate].
        destruct (strftime d) as [day|e4] eqn:Hday; simpl in Hcell; [discriminate|].
        injection Hcell as <-. apply strftime_raises in Hday. tauto.
      * injection Hcell as <-.
        assert (e3 = ValueError \/ e3 = TypeError \/ e3 = OverflowError) as Hk.
        { unfold compare_values in Hc.
          destruct (isna v1 && isna v2); [discriminate|].
          destruct (isna v1 || isna v2).
          - destruct (py_float (or_zero v1)) as [f1|x1] eqn:P1; simpl in Hc.
            + destruct (py_float (or_zero v2)) as [f2|x2] eqn:P2; simpl in Hc;
                [discriminate|]. injection Hc as <-. now apply py_float_raises in P2.
            + injection Hc as <-. now apply py_float_raises in P1.
          - destruct (py_float v1) as [f1|x1] eqn:P1; simpl in Hc.
            + destruct (py_float v2) as [f2|x2] eqn:P2; simpl in Hc; [discriminate|].
              apply py_float_raises in P2.
              destruct x2; try discriminate; injection Hc as <-; auto.
            + apply py_float_raises in P1.
              destruct x1; try discriminate; injection Hc as <-; auto. }
        tauto.
    + injection Hcell as <-. left.
      now apply (at_aligned_raises df2 common d c2).
  - injection Hcell as <-. left.
    now apply (at_aligned_raises df1 common d c1).
Qed.

(** X15: the exception behind an [Error during comparison] is a
    [ValueError], a [TypeError], an [OverflowError] or an [AttributeError]:
    the lookups by pattern, by [Date] column, by common date and by mapped
    column never miss, so no [KeyError] and no [IndexError] surfaces. *)
Theorem comparison_error_kinds (unify_name extract_name : string)
    (df1 df2 : DataFrame) (e : exn) :
  compare_files self unify_name extract_name df1 df2
  = Failed (ErrorDuringComparison e) ->
  comparison_exception e /\ e <> KeyError /\ e <> IndexError.
Proof.
  intros H.
  assert (comparison_exception e) as Hk.
  { pose proof (compare_files_stage self unify_name extract_name df1 df2) as Hs.
    rewrite H in Hs.
    inversion Hs as [f Hv Hf| | | |p m c1 c2 i1 i2 Hv Hm He H1 H2 E1 E2 Hr].
    - apply rejected_kinds in Hv.
      destruct Hv as [[missing Hk] | [p1 [p2 Hk]]]; congruence.
    - now apply reconcile_raises in Hr. }
  split; [exact Hk|].
  unfold comparison_exception in Hk.
  split; intros ->; destruct Hk as [Hk | [Hk | [Hk | Hk]]]; discriminate.
Qed.

(** X16: one pair of values on which [compare_values] raises aborts the
    whole loop: the loop returns no state, so the rows collected before that
    pair are lost with it. *)
Theorem raising_cell_aborts_loop (df1_aligned df2_aligned : DataFrame)
    (column_map : dict string) (common : list scalar)
    (cols : string * string) (d val1 val2 : scalar) (e : exn) :
  In cols column_map -> In d common ->
  at_ df1_aligned d (fst cols) = Ok val1 ->
  at_ df2_aligned d (snd cols) = Ok val2 ->
  compare_values self val1 val2 = Raise e ->
  exists e', compare_columns self df1_aligned df2_aligned column_map common = Raise e'.
Proof.
  intros Hcols Hd A1 A2 Hc. unfold compare_columns.
  apply (foldM_raises_some _ column_map cols Hcols).
  intros s. apply (foldM_raises_some _ common d Hd).
  intros s0. exists e. unfold compare_cell, record_comparison.
  now rewrite A1, A2; simpl; rewrite Hc.
Qed.

End Exceptions.

(** ** Frames with distinct dates and numeric cells *)

Section WellFormed.

Context {rt : PyRuntime}.
Variable self : StreamlitExcelComparator.

Lemma compare_values_on_floats (val1 val2 : scalar) :
  float_or_none val1 -> float_or_none val2 ->
  exists cmp, compare_values self val1 val2 = Ok cmp.
Proof.
  intros F1 F2. unfold compare_values.
  destruct (isna val1 && isna val2); [eexists; reflexivity|].
  destruct (isna val1 || isna val2).
  - destruct (py_float_or_zero_float val1 F1) as [f1 ->].
    destruct (py_float_or_zero_float val2 F2) as [f2 ->].
    simpl. eexists; reflexivity.
  - destruct val1, val2; simpl in *; try contradiction; eexists; reflexivity.
Qed.

Lemma label_rows_unique (rws : list row) (d : scalar) :
  NoDup (map fst rws) ->
  length (filter (fun r => scalar_eqb (fst r) d) rws) <= 1.
Proof.
  induction rws as [|r rws IH]; simpl; [lia|].
  intros Hnd. inversion Hnd as [|? ? Hr Hrest]; subst.
  destruct (scalar_eqb (fst r) d) eqn:E; [|now apply IH].
  apply scalar_eqb_eq in E. simpl.
  replace (filter (fun r0 => scalar_eqb (fst r0) d) rws) with (@nil row); [simpl; lia|].
  symmetry. clear IH Hnd Hrest. induction rws as [|r' rws IH']; simpl; [reflexivity|].
  destruct (scalar_eqb (fst r') d) eqn:E'.
  - apply scalar_eqb_eq in E'. exfalso. apply Hr. simpl. left. congruence.
  - apply IH'. intros Hin. apply Hr. now right.
Qed.

Lemma filter_other_label (rws : list row) (x d : scalar) :
  x <> d ->
  filter (fun r => scalar_eqb (fst r) d) (filter (fun r => scalar_eqb (fst r) x) rws) = [].
Proof.
  intros Hne. induction rws as [|r rws IH]; simpl; [reflexivity|].
  destruct (scalar_eqb (fst r) x) eqn:Ex; simpl; [|exact IH].
  destruct (scalar_eqb (fst r) d) eqn:Ed; [|exact IH].
  apply scalar_eqb_eq in Ex. apply scalar_eqb_eq in Ed. congruence.
Qed.

Lemma loc_rows_of_label (df : DataFrame) (labels : list scalar) (d : scalar) :
  NoDup labels -> In d labels ->
  filter (fun r => scalar_eqb (fst r) d) (rows (loc df labels))
  = filter (fun r => scalar_eqb (fst r) d) (rows df).
Proof.
  simpl. induction labels as [|x labels IH]; [intros _ []|].
  intros Hnd Hin. inversion Hnd as [|? ? Hx Hrest]; subst.
  simpl. rewrite filter_app.
  destruct Hin as [-> | Hin].
  - rewrite filter_twice.
    replace (filter (fun r => scalar_eqb (fst r) d)
               (flat_map (fun d0 => filter (fun r => scalar_eqb (fst r) d0) (rows df)) labels))
      with (@nil row); [now rewrite app_nil_r|].
    symmetry. clear IH Hnd Hrest. induction labels as [|y labels IH']; [reflexivity|].
    simpl. rewrite filter_app, filter_other_label.
    + apply IH'. intros H. apply Hx. now right.
    + intros ->. apply Hx. now left.
  - rewrite filter_other_label; [now apply IH|].
    intros ->. contradiction.
Qed.

(** With distinct labels, the lookup in the aligned frame yields the cell of
    the one row of the frame that carries the label. *)
Lemma at_aligned_value (df : DataFrame) (labels : list scalar) (d : scalar)
    (col : string) :
  NoDup (index df) -> NoDup labels ->
  In d labels -> In d (index df) -> In col (columns df) ->
  exists j r,
    col_pos col (columns df) = Some j /\ In r (rows df) /\
    at_ (loc df labels) d col = Ok (cell j r).
Proof.
  intros Hnd Hl Hd Hi Hc. unfold at_.
  change (columns (loc df labels)) with (columns df).
  destruct (col_pos_present _ _ Hc) as [j Hj]. rewrite Hj.
  rewrite (loc_rows_of_label df labels d Hl Hd).
  pose proof (label_rows_unique (rows df) d Hnd) as Hlen.
  unfold index in Hi. apply in_map_iff in Hi. destruct Hi as [r0 [Hr0 Hin0]].
  assert (In r0 (filter (fun r => scalar_eqb (fst r) d) (rows df))) as Hin.
  { apply filter_In. split; [exact Hin0 | now apply scalar_eqb_eq]. }
  destruct (filter (fun r => scalar_eqb (fst r) d) (rows df)) as [|r [|r' l]] eqn:Hf.
  - destruct Hin.
  - exists j, r. split; [reflexivity|]. split; [|reflexivity].
    assert (In r (filter (fun r => scalar_eqb (fst r) d) (rows df))) as Hr
        by (rewrite Hf; now left).
    now apply filter_In in Hr.
  - simpl in Hlen. lia.
Qed.

(** X17: on two date-indexed frames with pairwise distinct column names
    and pairwise distinct dates, whose common dates are timestamps and whose
    mapped columns hold floats or nothing, the comparison loop runs to its
    end: no lookup, no comparison and no formatting of a date in it raises.
    What [compare_files] does after the loop is not part of the statement. *)
Theorem distinct_dates_numeric_cells_complete (mapping_pattern : string)
    (df1 df2 : DataFrame) :
  NoDup (columns df1) -> NoDup (columns df2) ->
  NoDup (index df1) -> NoDup (index df2) ->
  (forall d, In d (index df1) -> In d (index df2) -> is_timestamp d) ->
  (forall c1 c2,
      In (c1, c2) (get_column_mapping self mapping_pattern (columns df1) (columns df2)) ->
      float_column df1 c1 /\ float_column df2 c2) ->
  let common := index_intersection (index df1) (index df2) in
  exists st,
    compare_columns self (loc df1 common) (loc df2 common)
      (get_column_mapping self mapping_pattern (columns df1) (columns df2)) common
    = Ok st.
Proof.
  intros _ _ N1 N2 Hts Hcells common.
  apply (compare_columns_completes self (loc df1 common) (loc df2 common)).
  intros [c1 c2] d Hcols Hd. simpl.
  destruct (Hcells c1 c2 Hcols) as [F1 F2].
  apply column_mapping_entries in Hcols. destruct Hcols as [I1 I2].
  assert (NoDup common) as Hnc by apply unique_NoDup.
  pose proof Hd as Hd'. apply intersection_In in Hd'. destruct Hd' as [D1 D2].
  split; [now apply Hts|].
  destruct (at_aligned_value df1 common d c1 N1 Hnc Hd D1 I1) as [j1 [r1 [P1 [R1 A1]]]].
  destruct (at_aligned_value df2 common d c2 N2 Hnc Hd D2 I2) as [j2 [r2 [P2 [R2 A2]]]].
  destruct (compare_values_on_floats (cell j1 r1) (cell j2 r2)) as [cmp Hcmp];
    [now apply (F1 j1 r1) | now apply (F2 j2 r2)|].
  now exists (cell j1 r1), (cell j2 r2), cmp.
Qed.

Lemma parse_dates_has_column (df : DataFrame) (col_name name : string) :
  has_column df name = true -> has_column (parse_dates df col_name) name = true.
Proof.
  intros Hn. unfold parse_dates.
  destruct (col_pos col_name (columns df)) as [j|]; [|exact Hn].
  destruct (parsed_dates (column_dtype df j) (column_values df j)) as [dates|e];
    [|exact Hn].
  unfold has_column in *. rewrite set_column_columns.
  destruct (has_column df "Date"); [exact Hn|].
  now rewrite existsb_app, Hn.
Qed.

(** X18: [Could not parse dates from files] is reported only when one
    of the two frames has no column named [Date] to begin with: a frame that
    already has one passes the test whether or not its dates were parsed. *)
Theorem parse_failure_needs_missing_date (unify_name extract_name : string)
    (df1 df2 : DataFrame) :
  compare_files self unify_name extract_name df1 df2 = Failed ParseFailure ->
  has_column df1 "Date" = false \/ has_column df2 "Date" = false.
Proof.
  intros H.
  pose proof (compare_files_stage self unify_name extract_name df1 df2) as Hs.
  rewrite H in Hs.
  inversion Hs as [f Hv Hf| | |p m c1 c2 Hv Hm He H1 H2 Hd
                   |p m c1 c2 i1 i2 Hv Hm He H1 H2 E1 E2 Hr].
  - apply rejected_kinds in Hv.
    destruct Hv as [[missing Hk] | [p1 [p2 Hk]]]; congruence.
  - destruct Hd as [Hd | Hd].
    + left. destruct (has_column df1 "Date") eqn:E; [|reflexivity].
      now rewrite (parse_dates_has_column df1 c1 "Date" E) in Hd.
    + right. destruct (has_column df2 "Date") eqn:E; [|reflexivity].
      assert (has_column (filter_extract_by_prodhier df2 (prod_hier_filter m)) "Date"
              = true) as E'.
      { unfold has_column in *. now rewrite filter_keeps_columns. }
      now rewrite (parse_dates_has_column _ c2 "Date" E') in Hd.
  - apply reconcile_failure in Hr. simpl in Hr.
    destruct Hr as [[Hk _] | [[Hk _] | [e [Hk _]]]]; discriminate.
Qed.

End WellFormed.

(** ** What the correspondence holds *)

Section Correspondence.

Context {rt : PyRuntime}.
Variable self : StreamlitExcelComparator.
Variables df1_cols df2_cols : list string.

Lemma dict_get_set_same {V} (d : dict V) (k : string) (v : V) :
  dict_get (dict_set d k v) k = Some v.
Proof.
  induction d as [|[k' v'] d IH]; simpl.
  - now rewrite String.eqb_refl.
  - destruct (k' =? k)%string eqn:E; simpl; rewrite E; [reflexivity | exact IH].
Qed.

Lemma dict_get_set_other {V} (d : dict V) (k k0 : string) (v : V) :
  k <> k0 -> dict_get (dict_set d k v) k0 = dict_get d k0.
Proof.
  intros Hne. induction d as [|[k' v'] d IH]; simpl.
  - destruct (String.eqb_spec k k0); [contradiction | reflexivity].
  - destruct (String.eqb_spec k' k) as [->|Hk]; simpl.
    + destruct (String.eqb_spec k k0); [contradiction | reflexivity].
    + destruct (k' =? k0)%string; [reflexivity | exact IH].
Qed.

(** What one round of the loop leaves under a key: the pair the expected
    name stores there, or what was there before if it stores nothing
    there. *)
Lemma align_target_lookup (column_map : dict string) (target_col c1 c2 : string) :
  dict_get (align_target df1_cols df2_cols column_map target_col) c1 = Some c2 <->
  stores_pair df1_cols df2_cols target_col c1 c2 \/
  (~ writes_key df1_cols df2_cols target_col c1 /\ dict_get column_map c1 = Some c2).
Proof.
  unfold align_target, found, writes_key, stores_pair.
  destruct (first_match target_col df1_cols) as [k|].
  2:{ split.
      - intros H. right. split; [intros [x [Hx _]]; discriminate | exact H].
      - intros [[Hx _] | [_ H]]; [discriminate | exact H]. }
  destruct (first_match target_col df2_cols) as [v|].
  2:{ split.
      - intros H. right. split; [intros [x [_ [Hx _]]]; discriminate | exact H].
      - intros [[_ [Hx _]] | [_ H]]; [discriminate | exact H]. }
  destruct (String.eqb_spec k EmptyString) as [->|Nk]; simpl.
  { split.
    - intros H. right. split; [|exact H].
      intros [x [Hx [_ [Hn _]]]]. injection Hx as <-. now apply Hn.
    - intros [[Hx [_ [Hn _]]] | [_ H]]; [|exact H].
      injection Hx as <-. now contradiction Hn. }
  destruct (String.eqb_spec v EmptyString) as [->|Nv]; simpl.
  { split.
    - intros H. right. split; [|exact H].
      intros [x [_ [Hx [_ Hn]]]]. injection Hx as <-. now apply Hn.
    - intros [[_ [Hx [_ Hn]]] | [_ H]]; [|exact H].
      injection Hx as <-. now contradiction Hn. }
  destruct (String.eqb_spec k c1) as [->|Nkc].
  - rewrite dict_get_set_same. split.
    + intros [= <-]. left. repeat split; assumption.
    + intros [[_ [Hv _]] | [Hnw _]].
      * now injection Hv as <-.
      * exfalso. apply Hnw. exists v. repeat split; assumption.
  - rewrite dict_get_set_other by exact Nkc. split.
    + intros H. right. split; [|exact H].
      intros [x [Hx _]]. injection Hx as <-. now apply Nkc.
    + intros [[Hx _] | [_ H]]; [|exact H].
      injection Hx as <-. now contradiction Nkc.
Qed.

(** What the whole loop leaves under a key: the pair of the last expected
    name that stores one there, or the initial value if none does. *)
Lemma align_all_lookup (targets : list string) (column_map : dict string)
    (c1 c2 : string) :
  dict_get (fold_left (align_target df1_cols df2_cols) targets column_map) c1 = Some c2 <->
  (exists earlier target_col later,
      targets = earlier ++ target_col :: later /\
      stores_pair df1_cols df2_cols target_col c1 c2 /\
      forall t, In t later -> ~ writes_key df1_cols df2_cols t c1) \/
  (dict_get column_map c1 = Some c2 /\
   forall t, In t targets -> ~ writes_key df1_cols df2_cols t c1).
Proof.
  revert column_map; induction targets as [|t targets IH]; intros column_map; simpl.
  - split.
    + intros H. right. split; [exact H | intros ? []].
    + intros [[[|x earlier] [t0 [later [H _]]]] | [H _]]; [discriminate.. | exact H].
  - rewrite IH, align_target_lookup. split.
    + intros [[earlier [t0 [later [-> [Hs Hl]]]]] | [[Hs | [Hnw Hget]] Hrest]].
      * left. exists (t :: earlier), t0, later.
        split; [reflexivity | split; [exact Hs | exact Hl]].
      * left. exists [], t, targets.
        split; [reflexivity | split; [exact Hs | exact Hrest]].
      * right. split; [exact Hget|]. intros t' [<- | Ht']; auto.
    + intros [[[|x earlier] [t0 [later [Heq [Hs Hl]]]]] | [Hget Hno]].
      * simpl in Heq. injection Heq as <- <-. right. split; [now left | exact Hl].
      * simpl in Heq. injection Heq as <- ->. left.
        exists earlier, t0, later.
        split; [reflexivity | split; [exact Hs | exact Hl]].
      * right. split; [|intros t' Ht'; apply Hno; now right].
        right. split; [apply Hno; now left | exact Hget].
Qed.

Lemma column_mapping_lookup (mapping_pattern c1 c2 : string) :
  dict_get (get_column_mapping self mapping_pattern df1_cols df2_cols) c1 = Some c2 <->
  exists m earlier target_col later,
    dict_get (mappings self) mapping_pattern = Some m /\
    geographies m = earlier ++ target_col :: later /\
    stores_pair df1_cols df2_cols target_col c1 c2 /\
    forall t, In t later -> ~ writes_key df1_cols df2_cols t c1.
Proof.
  unfold get_column_mapping.
  destruct (dict_get (mappings self) mapping_pattern) as [m|].
  - rewrite align_all_lookup. split.
    + intros [[earlier [t [later [Hg [Hs Hl]]]]] | [H _]]; [|discriminate].
      now exists m, earlier, t, later.
    + intros [m' [earlier [t [later [[= <-] [Hg [Hs Hl]]]]]]].
      left. now exists earlier, t, later.
  - split; [discriminate|].
    intros [m' [earlier [t [later [H _]]]]]. discriminate.
Qed.

Lemma column_mapping_keys_distinct (mapping_pattern : string) :
  NoDup (keys (get_column_mapping self mapping_pattern df1_cols df2_cols)).
Proof.
  unfold get_column_mapping.
  destruct (dict_get (mappings self) mapping_pattern) as [m|]; [|constructor].
  apply (align_all_invariant df1_cols df2_cols (geographies m)
           (fun d => NoDup (keys d))); [constructor|].
  intros d c1 c2 Hd _ _ _ _. now apply dict_set_NoDup.
Qed.

Lemma column_mapping_member (mapping_pattern c1 c2 : string) :
  In (c1, c2) (get_column_mapping self mapping_pattern df1_cols df2_cols) <->
  exists m earlier target_col later,
    dict_get (mappings self) mapping_pattern = Some m /\
    geographies m = earlier ++ target_col :: later /\
    stores_pair df1_cols df2_cols target_col c1 c2 /\
    forall t, In t later -> ~ writes_key df1_cols df2_cols t c1.
Proof.
  rewrite <- column_mapping_lookup. symmetry.
  apply dict_get_In, column_mapping_keys_distinct.
Qed.

Lemma writes_key_decided (target_col c1 : string) :
  writes_key df1_cols df2_cols target_col c1 \/
  ~ writes_key df1_cols df2_cols target_col c1.
Proof.
  unfold writes_key, stores_pair.
  destruct (first_match target_col df1_cols) as [k|];
    [|right; intros [x [H _]]; discriminate].
  destruct (first_match target_col df2_cols) as [v|];
    [|right; intros [x [_ [H _]]]; discriminate].
  destruct (string_dec k c1) as [->|Nk];
    [|right; intros [x [H _]]; injection H as <-; now apply Nk].
  destruct (string_dec c1 EmptyString) as [E1|N1];
    [right; intros [x [_ [_ [H _]]]]; now apply H|].
  destruct (string_dec v EmptyString) as [E2|N2].
  - right. intros [x [_ [H [_ Hx]]]]. injection H as <-. now apply Hx.
  - left. exists v. repeat split; assumption.
Qed.

(** Among the expected names, either one is the last to store under the key
    or none stores there. *)
Lemma last_writer (targets : list string) (c1 : string) :
  (exists earlier target_col later,
      targets = earlier ++ target_col :: later /\
      writes_key df1_cols df2_cols target_col c1 /\
      forall t, In t later -> ~ writes_key df1_cols df2_cols t c1) \/
  (forall t, In t targets -> ~ writes_key df1_cols df2_cols t c1).
Proof.
  induction targets as [|x targets IH]; [right; intros ? []|].
  destruct IH as [[earlier [t [later [-> [Hw Hl]]]]] | Hnone].
  - left. now exists (x :: earlier), t, later.
  - destruct (writes_key_decided x c1) as [Hx | Hx].
    + left. now exists [], x, targets.
    + right. intros t [<- | Ht]; auto.
Qed.

(** C6: the search for an expected name walks a column list in its declared
    order and stops at the first column that, lower-cased, equals the
    lower-cased name, contains it or is contained in it; with no such column
    on one side the name adds nothing to the correspondence and the
    alignment goes on; the correspondence [get_column_mapping] returns holds
    the pair [(c1, c2)] exactly when [c1] and [c2] are the first matches, on
    the two sides, of an expected name of the catalog entry after which no
    expected name stores a pair under [c1], and it is empty for a pattern
    outside the catalog; [reconcile] fails with [NoColumnsMatched] exactly
    when, the common dates being non-empty, the correspondence is empty. *)
Theorem column_alignment_first_match :
  (forall target_col cols c,
      first_match target_col cols = Some c <->
      exists before after,
        cols = before ++ c :: after /\ matches_ci target_col c /\
        forall q, In q before -> ~ matches_ci target_col q) /\
  (forall target_col cols,
      first_match target_col cols = None <->
      forall q, In q cols -> ~ matches_ci target_col q) /\
  (forall column_map target_col,
      first_match target_col df1_cols = None \/
      first_match target_col df2_cols = None ->
      align_target df1_cols df2_cols column_map target_col = column_map) /\
  (forall mapping_pattern c1 c2,
      In (c1, c2) (get_column_mapping self mapping_pattern df1_cols df2_cols) <->
      exists m earlier target_col later,
        dict_get (mappings self) mapping_pattern = Some m /\
        geographies m = earlier ++ target_col :: later /\
        stores_pair df1_cols df2_cols target_col c1 c2 /\
        forall t, In t later -> ~ writes_key df1_cols df2_cols t c1) /\
  (forall mapping_pattern,
      NoDup (keys (get_column_mapping self mapping_pattern df1_cols df2_cols)) /\
      (dict_get (mappings self) mapping_pattern = None ->
       get_column_mapping self mapping_pattern df1_cols df2_cols = [])) /\
  (forall mapping_pattern filter_value df1 df2,
      reconcile self mapping_pattern filter_value df1 df2 = Failed NoColumnsMatched
      <-> index_intersection (index df1) (index df2) <> [] /\
          get_column_mapping self mapping_pattern (columns df1) (columns df2) = []).
Proof.
  split; [|split; [|split; [|split; [|split]]]].
  - apply first_match_first.
  - apply first_match_none.
  - intros column_map target_col H. unfold align_target.
    destruct H as [-> | ->]; [reflexivity|].
    now destruct (first_match target_col df1_cols).
  - apply column_mapping_member.
  - intros mapping_pattern. split; [apply column_mapping_keys_distinct|].
    intros H. unfold get_column_mapping. now rewrite H.
  - intros mapping_pattern filter_value df1 df2. split.
    + intros H. apply reconcile_failure in H.
      destruct H as [[H _] | [[_ H] | [e [H _]]]]; [discriminate | exact H | discriminate].
    + intros [Hne Hmap]. unfold reconcile.
      destruct (length (index_intersection (index df1) (index df2)) =? 0)%nat eqn:Hlen.
      * apply length_zero_nil in Hlen. contradiction.
      * change (columns (loc df1 ?c)) with (columns df1).
        change (columns (loc df2 ?c)) with (columns df2).
        now rewrite Hmap.
Qed.

(** C9, as the code has it: an expected name adds an entry to the
    correspondence only when a matching column is found in both column
    lists: a round that changes the map has a first match on each side and
    stores that pair, so a name matched on one side only leaves the map as it
    was; every entry of the final correspondence is the pair of first matches
    of some expected name of the catalog entry; and a column is a key of the
    correspondence exactly when some expected name stores a pair under it,
    whatever other names match it on one side only. *)
Theorem partial_match_adds_nothing :
  (forall column_map target_col,
      align_target df1_cols df2_cols column_map target_col <> column_map ->
      exists c1 c2,
        first_match target_col df1_cols = Some c1 /\
        first_match target_col df2_cols = Some c2 /\
        align_target df1_cols df2_cols column_map target_col
        = dict_set column_map c1 c2) /\
  (forall mapping_pattern c1 c2,
      In (c1, c2) (get_column_mapping self mapping_pattern df1_cols df2_cols) ->
      exists m target_col,
        dict_get (mappings self) mapping_pattern = Some m /\
        In target_col (geographies m) /\
        first_match target_col df1_cols = Some c1 /\
        first_match target_col df2_cols = Some c2) /\
  (forall mapping_pattern c1,
      (exists c2,
          In (c1, c2) (get_column_mapping self mapping_pattern df1_cols df2_cols)) <->
      exists m target_col,
        dict_get (mappings self) mapping_pattern = Some m /\
        In target_col (geographies m) /\
        writes_key df1_cols df2_cols target_col c1).
Proof.
  split; [|split].
  - intros column_map target_col Hne.
    destruct (align_target_cases df1_cols df2_cols column_map target_col)
      as [Heq | H]; [contradiction | exact H].
  - intros mapping_pattern c1 c2 H. apply column_mapping_member in H.
    destruct H as [m [earlier [t [later [Hm [Hg [[H1 [H2 _]] _]]]]]]].
    exists m, t. repeat split; try assumption.
    rewrite Hg. apply in_or_app. right. now left.
  - intros mapping_pattern c1. split.
    + intros [c2 H]. apply column_mapping_member in H.
      destruct H as [m [earlier [t [later [Hm [Hg [Hs _]]]]]]].
      exists m, t. split; [exact Hm|]. split; [|now exists c2].
      rewrite Hg. apply in_or_app. right. now left.
    + intros [m [t [Hm [Ht Hw]]]].
      destruct (last_writer (geographies m) c1)
        as [[earlier [t0 [later [Hg [[c2 Hs] Hl]]]]] | Hnone].
      * exists c2. apply column_mapping_member.
        now exists m, earlier, t0, later.
      * exfalso. now apply (Hnone t).
Qed.

(** X20: the correspondence is keyed by the first frame's column, so
    expected names that store a pair under the same column do not add up:
    the pair held for that column is the one of the last expected name, in
    catalog order, that has the column as its first match in the first frame
    and a first match in the second frame too; later names that select the
    column without a match in the second frame change nothing. *)
Theorem last_expected_name_wins (mapping_pattern : string) (m : mapping)
    (earlier later : list string) (target_col c1 c2 : string) :
  dict_get (mappings self) mapping_pattern = Some m ->
  geographies m = earlier ++ target_col :: later ->
  stores_pair df1_cols df2_cols target_col c1 c2 ->
  (forall t, In t later -> ~ writes_key df1_cols df2_cols t c1) ->
  dict_get (get_column_mapping self mapping_pattern df1_cols df2_cols) c1 = Some c2.
Proof.
  intros Hm Hg Hs Hl. apply column_mapping_lookup.
  now exists m, earlier, target_col, later.
Qed.

End Correspondence.

(** ** Highlighting *)

Section Highlight.

Context {rt : PyRuntime}.
Variable self : StreamlitExcelComparator.

Lemma highlight_length (ws : worksheet) :
  length (highlight_differences_in_writer self ws) = length ws.
Proof.
  induction ws as [|cells ws IH]; [reflexivity|].
  cbn [highlight_differences_in_writer].
  destruct (cell_above_threshold self (difference_cell cells)); simpl.
  - now rewrite IH.
  - now rewrite length_map.
Qed.

Lemma nth_error_all_false {A} (l : list A) (i : nat) :
  nth_error (map (fun _ => false) l) i <> Some true.
Proof.
  revert i; induction l as [|x l IH]; intros [|i]; simpl; try discriminate.
  apply IH.
Qed.

Lemma nth_error_false_within {A} (l : list A) (i : nat) :
  i < length l -> nth_error (map (fun _ => false) l) i = Some false.
Proof.
  revert i; induction l as [|x l IH]; intros [|i]; simpl; intros H;
    try lia; [reflexivity | apply IH; lia].
Qed.

Lemma cell_above_threshold_true (v : scalar) :
  cell_above_threshold self v = Ok true <->
  truthy v = true /\
  exists f, py_float v = Ok f /\ (threshold self <? f)%float = true.
Proof.
  unfold cell_above_threshold. destruct (truthy v).
  - destruct (py_float v) as [f|e]; simpl; split.
    + intros [= H]. split; [reflexivity | now exists f].
    + intros [_ [f' [[= <-] H]]]. now rewrite H.
    + discriminate.
    + intros [_ [f' [H _]]]. discriminate.
  - split; [discriminate | intros [H _]; discriminate].
Qed.

(** A row is filled exactly when its own cell passes the test and no cell
    before it raised. *)
Lemma highlight_row (ws : worksheet) (i : nat) (cells : list scalar) :
  nth_error ws i = Some cells ->
  (nth_error (highlight_differences_in_writer self ws) i = Some true <->
   cell_above_threshold self (difference_cell cells) = Ok true /\
   forall k earlier, k < i -> nth_error ws k = Some earlier ->
     exists fill, cell_above_threshold self (difference_cell earlier) = Ok fill).
Proof.
  revert i; induction ws as [|row ws IH]; intros i; [now destruct i|].
  cbn [highlight_differences_in_writer].
  destruct (cell_above_threshold self (difference_cell row)) as [fill|e] eqn:Hrow.
  - destruct i as [|i]; simpl.
    + intros [= <-]. rewrite Hrow. split.
      * intros [= ->]. split; [reflexivity | intros k earlier Hk; lia].
      * now intros [[= ->] _].
    + intros Hi. rewrite (IH i Hi). split.
      * intros [Hc Hbefore]. split; [exact Hc|].
        intros [|k] earlier Hk; simpl.
        -- intros [= <-]. now exists fill.
        -- apply Hbefore. lia.
      * intros [Hc Hbefore]. split; [exact Hc|].
        intros k earlier Hk Hnth. apply (Hbefore (S k) earlier); [lia | exact Hnth].
  - intros Hi. split.
    + intros H. exfalso. now apply (nth_error_all_false (row :: ws) i).
    + intros [Hc Hbefore]. destruct i as [|i].
      * simpl in Hi. injection Hi as <-. congruence.
      * destruct (Hbefore 0 row) as [fill Hfill]; [lia | reflexivity | congruence].
Qed.

(** From the first cell that raises on, no row is filled. *)
Lemma highlight_after_raise (ws : worksheet) (k : nat) (cells : list scalar)
    (e : exn) :
  nth_error ws k = Some cells ->
  cell_above_threshold self (difference_cell cells) = Raise e ->
  forall i, k <= i -> i < length ws ->
            nth_error (highlight_differences_in_writer self ws) i = Some false.
Proof.
  revert k; induction ws as [|row ws IH]; intros k; [now destruct k|].
  intros Hk He i Hki Hi. cbn [highlight_differences_in_writer].
  destruct (cell_above_threshold self (difference_cell row)) as [fill|e'] eqn:Hrow.
  - destruct k as [|k]; [simpl in Hk; injection Hk as <-; congruence|].
    destruct i as [|i]; [lia|]. simpl in *.
    apply (IH k Hk He); lia.
  - now apply nth_error_false_within.
Qed.

(** X19: [highlight_differences_in_writer] decides one fill per data
    row.  A row is filled exactly when its own [Difference] cell is a
    non-empty, non-zero value that converts to a float above the threshold
    and no [Difference] cell of an earlier row failed to convert; from the
    first cell that fails to convert on, no row is filled, whatever its
    cell holds.  Under a threshold at or above zero, a sheet all of whose
    [Difference] cells hold floats above the threshold is filled in every
    row. *)
Theorem highlight_fills_rows_above_threshold (ws : worksheet) :
  length (highlight_differences_in_writer self ws) = length ws /\
  (forall i cells,
      nth_error ws i = Some cells ->
      (nth_error (highlight_differences_in_writer self ws) i = Some true <->
       (truthy (difference_cell cells) = true /\
        exists f, py_float (difference_cell cells) = Ok f /\
                  (threshold self <? f)%float = true) /\
       forall k earlier, k < i -> nth_error ws k = Some earlier ->
         exists fill, cell_above_threshold self (difference_cell earlier) = Ok fill)) /\
  (forall k cells e,
      nth_error ws k = Some cells ->
      cell_above_threshold self (difference_cell cells) = Raise e ->
      forall i, k <= i -> i < length ws ->
                nth_error (highlight_differences_in_writer self ws) i = Some false) /\
  ((0 <=? threshold self)%float = true ->
   (forall cells, In cells ws ->
      exists d, difference_cell cells = PyFloat d /\
                (threshold self <? d)%float = true) ->
   highlight_differences_in_writer self ws = map (fun _ => true) ws).
Proof.
  split; [apply highlight_length|]. split; [|split].
  - intros i cells Hi. rewrite (highlight_row ws i cells Hi).
    now rewrite cell_above_threshold_true.
  - apply highlight_after_raise.
  - intros Ht. induction ws as [|row ws IH]; intros Hall; [reflexivity|].
    cbn [highlight_differences_in_writer].
    destruct (Hall row (or_introl eq_refl)) as [d [Hd Hlt]].
    unfold cell_above_threshold. rewrite Hd. simpl.
    rewrite (above_nonnegative_nonzero _ _ Ht Hlt). simpl. rewrite Hlt.
    rewrite IH; [reflexivity|]. intros cells Hin. apply Hall. now right.
Qed.

End Highlight.

(** ** The further properties at concrete inputs *)

Section MoreExamples.

Local Existing Instance Sample.runtime.

Lemma match_ignores_case_witness :
  match_filename_to_mapping default_comparator Cases.extract_name_other_case
  = match_filename_to_mapping default_comparator Sample.extract_name.
Proof. apply match_ignores_case. reflexivity. Defined.

Lemma rejection_message_witness :
  PyStr.occurs_in "File 1: budget_2024.xlsx"
    (error_msg default_comparator (UnmappedFile ["File 1: budget_2024.xlsx"])).
Proof.
  apply (proj1 (rejection_message_content default_comparator
                  Cases.unknown_name Sample.extract_name _ eq_refl)).
  reflexivity.
Defined.

Lemma both_missing_witness :
  compare_values default_comparator PyNone (PyFloat nan) = Ok (None, 0%float).
Proof.
  exact (proj1 (both_missing_never_recorded default_comparator
                  "Hypermarkets (7011)" "HYPERMARKETS (7011)" (Timestamp 19730)
                  PyNone (PyFloat nan)
                  {| mismatch_rows := []; total_comparisons := 0;
                     significant_differences := 0 |}
                  eq_refl eq_refl)).
Defined.

Lemma numeric_pair_witness :
  significant default_comparator (Some (0.01 <? abs (100 - 100.02))%float)
    (abs (100 - 100.02))
  = (0.01 <? abs (100 - 100.02))%float.
Proof.
  exact (proj2 (numeric_pair_recorded_iff_different default_comparator
                  (PyFloat 100) (PyFloat 100.02) 100 100.02
                  eq_refl eq_refl eq_refl eq_refl)).
Defined.

Lemma text_cell_witness :
  compare_values default_comparator (PyStr "n.a.") (PyStr "-")
  = Ok (Some (py_ne (PyStr "n.a.") (PyStr "-")), 0%float).
Proof.
  exact (proj1 (text_cell_difference_zero default_comparator "n.a." (PyStr "-")
                  eq_refl eq_refl)).
Defined.

Lemma text_against_missing_witness :
  compare_values default_comparator (PyFloat nan) (PyStr "n.a.") = Raise ValueError.
Proof.
  refine (proj1 (text_against_missing_raises default_comparator "n.a." (PyFloat nan)
                   eq_refl _ (or_intror eq_refl))).
  discriminate.
Defined.

Lemma completed_comparison_witness :
  exists o,
    compare_files default_comparator Sample.unify_name Sample.extract_name
      Sample.unify Sample.extract = Compared o /\
    1 <= total o /\ significant_count o <= total o.
Proof.
  eexists. split; [vm_compute; reflexivity|].
  pose proof (completed_comparison_summary default_comparator
                Sample.unify_name Sample.extract_name Sample.unify Sample.extract
                _ eq_refl) as [_ [_ [_ [H1 [H2 _]]]]].
  split; assumption.
Defined.

Lemma comparison_error_witness : comparison_exception ValueError.
Proof.
  refine (proj1 (comparison_error_kinds default_comparator
                   Sample.unify_name Sample.extract_name
                   Cases.unify_repeated_date Sample.extract ValueError _)).
  vm_compute. reflexivity.
Defined.

Lemma raising_cell_witness :
  exists e,
    compare_columns default_comparator Cases.unify_text_aligned Cases.extract_gap_aligned
      [("Hypermarkets (7011)", "HYPERMARKETS (7011)")] [Timestamp 19730] = Raise e.
Proof.
  apply (raising_cell_aborts_loop default_comparator
           Cases.unify_text_aligned Cases.extract_gap_aligned
           [("Hypermarkets (7011)", "HYPERMARKETS (7011)")] [Timestamp 19730]
           ("Hypermarkets (7011)", "HYPERMARKETS (7011)") (Timestamp 19730)
           (PyStr "n.a.") (PyFloat nan) ValueError);
    try reflexivity; simpl; auto.
Defined.

Lemma distinct_dates_witness :
  exists st,
    compare_columns default_comparator
      (loc Sample.unify_aligned [Timestamp 19730])
      (loc Sample.extract_aligned [Timestamp 19730])
      [("Hypermarkets (7011)", "HYPERMARKETS (7011)")] [Timestamp 19730] = Ok st.
Proof.
  apply (distinct_dates_numeric_cells_complete default_comparator "APROTEICI"
           Sample.unify_aligned Sample.extract_aligned).
  - simpl. repeat constructor; simpl; intuition discriminate.
  - simpl. repeat constructor; simpl; intuition discriminate.
  - simpl. repeat constructor. intros [].
  - simpl. repeat constructor. intros [].
  - intros d [<- | []] _. now exists 19730%Z.
  - intros c1 c2 H. vm_compute in H. destruct H as [[= <- <-] | []].
    split; intros j r Hj Hr; vm_compute in Hj; injection Hj as <-;
      destruct Hr as [<- | []]; exact I.
Defined.

Lemma parse_failure_witness :
  has_column Sample.unify_with_total "Date" = false \/
  has_column Sample.extract "Date" = false.
Proof.
  refine (parse_failure_needs_missing_date default_comparator
            Sample.unify_name Sample.extract_name
            Sample.unify_with_total Sample.extract _).
  vm_compute. reflexivity.
Defined.

Lemma last_expected_name_witness :
  dict_get (get_column_mapping default_comparator "APROTEICI"
              Cases.lone_unify_column Cases.lone_extract_column) "Total Italy"
  = Some "Total Italy + Pharma (4380)".
Proof.
  pose (m := match dict_get BUILT_IN_MAPPINGS "APROTEICI" with
             | Some m => m
             | None => {| geographies := []; prod_hier_filter := EmptyString |}
             end).
  apply (last_expected_name_wins default_comparator
           Cases.lone_unify_column Cases.lone_extract_column "APROTEICI" m
           (firstn 5 (geographies m)) (skipn 6 (geographies m))
           "Total Italy + Pharma (4380)").
  - reflexivity.
  - reflexivity.
  - unfold stores_pair. repeat split; discriminate.
  - intros t Ht [c2 [_ [H2 _]]]. simpl in Ht.
    destruct Ht as [<- | [<- | [<- | []]]]; vm_compute in H2; discriminate.
Defined.

(** One [Total Italy] column in the first frame, one
    [Total Italy + Pharma (4380)] column in the second: the expected name
    [Total Italy (inc. Discount) (7406)] matches in the first frame only,
    and yet the column it matched there is in the correspondence, brought in
    by the next expected name. *)
Lemma partial_match_column_reappears :
  (exists m,
      dict_get (mappings default_comparator) "APROTEICI" = Some m /\
      In "Total Italy (inc. Discount) (7406)" (geographies m)) /\
  first_match "Total Italy (inc. Discount) (7406)" Cases.lone_unify_column
  = Some "Total Italy" /\
  first_match "Total Italy (inc. Discount) (7406)" Cases.lone_extract_column = None /\
  get_column_mapping default_comparator "APROTEICI"
    Cases.lone_unify_column Cases.lone_extract_column
  = [("Total Italy", "Total Italy + Pharma (4380)")].
Proof.
  split; [eexists; split; [reflexivity | simpl; auto 10]|].
  repeat split.
Qed.

(** Under a negative threshold a row with difference zero is listed by the
    loop's test and yet left without fill. *)
Example zero_difference_not_filled :
  let lenient := {| threshold := (-1)%float; mappings := BUILT_IN_MAPPINGS |} in
  significant lenient (Some true) 0 = true /\
  highlight_differences_in_writer lenient
    [ [PyStr "2024-01-08"; PyStr "a"; PyStr "x"; PyStr "b"; PyStr "y"; PyFloat 0; PyNone];
      [PyStr "2024-01-08"; PyStr "c"; PyFloat 1; PyStr "d"; PyFloat 4; PyFloat 3; PyNone] ]
  = [false; true].
Proof. split; reflexivity. Qed.

(** A cell that is no number ends the filling: the row after it stays
    without fill although its difference is above the threshold. *)
Example text_cell_ends_filling :
  highlight_differences_in_writer default_comparator
    [ [PyNone; PyNone; PyNone; PyNone; PyNone; PyFloat 3];
      [PyNone; PyNone; PyNone; PyNone; PyNone; PyStr "abc"];
      [PyNone; PyNone; PyNone; PyNone; PyNone; PyFloat 5] ]
  = [true; false; false].
Proof. reflexivity. Qed.

End MoreExamples.
